(** * mkosi.installer.dnf: the dnf/dnf5/yum package-manager backend

    A shallow embedding of [src/mkosi/installer/dnf.py] (class [Dnf]) and the
    properties of it that the specification states.

    Strings are Rocq strings, the file system is a finite map from paths to
    nodes, and every method that touches the file system is a function from a
    file-system state to the state it leaves together with either the value
    it returns or the exception it raises. *)

From Stdlib Require Import String Ascii List ZArith Bool Lia.
From stdpp Require Import base option list strings gmap fin_maps pretty.

Import ListNotations.
Open Scope string_scope.
Open Scope list_scope.

(** ** Python strings *)

Module PyStr.

Definition LF : ascii := "010"%char.
Definition TAB : ascii := "009"%char.
Definition SP : ascii := " "%char.

(** The one-character string "\n". *)
Definition nl : string := String LF "".

(** [" " * n] *)
Fixpoint spaces (n : nat) : string :=
  match n with
  | O => ""
  | S k => String SP (spaces k)
  end.

(** [s.split(c)] for a one-character separator: never the empty list. *)
Fixpoint split (c : ascii) (s : string) : list string :=
  match s with
  | EmptyString => [EmptyString]
  | String a rest =>
      if Ascii.eqb a c then EmptyString :: split c rest
      else match split c rest with
           | [] => [String a EmptyString]
           | w :: ws => String a w :: ws
           end
  end.

(** [c.join(l)] *)
Fixpoint join (c : ascii) (l : list string) : string :=
  match l with
  | [] => ""
  | [w] => w
  | w :: ws => w +:+ String c (join c ws)
  end.

(** [s.startswith(p)] *)
Definition startswith (s p : string) : bool := String.prefix p s.

(** [s.endswith(p)] *)
Definition endswith (s p : string) : bool :=
  String.prefix (String.rev p) (String.rev s).

(** [c in s] for a character [c]. *)
Fixpoint contains (c : ascii) (s : string) : bool :=
  match s with
  | EmptyString => false
  | String a rest => Ascii.eqb a c || contains c rest
  end.

(** [sub in s] for a string [sub]. *)
Fixpoint contains_str (sub s : string) : bool :=
  String.prefix sub s ||
  match s with
  | EmptyString => false
  | String _ rest => contains_str sub rest
  end.

(** Truth value of a string: the empty string is false. *)
Definition truthy (s : string) : bool :=
  match s with EmptyString => false | _ => true end.

(** [str(n)] for an integer. *)
Definition str_int (n : Z) : string := pretty n.

(** [int(b)] then formatted: [f"{int(b)}"]. *)
Definition str_int_of_bool (b : bool) : string := if b then "1" else "0".

End PyStr.

(** ** textwrap.dedent

    The text is processed line by line: lines of blanks only are emptied, the
    margin is the longest common prefix of the indentations of the lines that
    have something else than blanks, and the margin is removed from every line
    that starts with it. *)

Module Textwrap.
Import PyStr.

Definition is_blank (a : ascii) : bool := Ascii.eqb a SP || Ascii.eqb a TAB.

Fixpoint all_blank (s : string) : bool :=
  match s with
  | EmptyString => true
  | String a rest => is_blank a && all_blank rest
  end.

(** [_whitespace_only_re.sub('', text)], on one line. *)
Definition blank_out (line : string) : string :=
  if all_blank line then "" else line.

(** The leading run of blanks of a line. *)
Fixpoint leading_blanks (s : string) : string :=
  match s with
  | EmptyString => ""
  | String a rest => if is_blank a then String a (leading_blanks rest) else ""
  end.

(** [_leading_whitespace_re.findall(text)]: one indentation for every line
    that has a character other than blanks. *)
Definition indents (lines : list string) : list string :=
  map leading_blanks (filter (fun l => negb (all_blank l)) lines).

(** The first index where [margin] and [indent] differ cuts the margin. *)
Fixpoint common_prefix (margin indent : string) : string :=
  match margin, indent with
  | String x m', String y i' =>
      if Ascii.eqb x y then String x (common_prefix m' i') else ""
  | _, _ => ""
  end.

Definition update_margin (margin : option string) (indent : string) : option string :=
  match margin with
  | None => Some indent
  | Some m =>
      if startswith indent m then Some m
      else if startswith m indent then Some indent
      else Some (common_prefix m indent)
  end.

Definition strip_margin (margin line : string) : string :=
  if startswith line margin
  then String.substring (String.length margin)
         (String.length line - String.length margin) line
  else line.

Definition dedent (text : string) : string :=
  let lines := map blank_out (split LF text) in
  let margin := fold_left update_margin (indents lines) None in
  match margin with
  | Some m =>
      if truthy m then join LF (map (strip_margin m) lines) else join LF lines
  | None => join LF lines
  end.

End Textwrap.

(** ** pathlib *)

Module PyPath.
Import PyStr.

(** [PurePosixPath(s).parts] without the root: the components between
    slashes, empty ones and ["."] dropped. *)
Definition parts (s : string) : list string :=
  List.filter (fun x => negb (String.eqb x "") && negb (String.eqb x "."))
    (split "/"%char s).

(** [PurePosixPath(s).name]: the last component, [""] when there is none. *)
Definition name (s : string) : string := List.last (parts s) "".

(** An absolute path of the file system, as its components from the root. *)
Definition path : Type := list string.

(** [p / "a/b"] *)
Definition div (p : path) (rel : string) : path := p ++ parts rel.

(** [p.parent]; the root is its own parent. *)
Definition parent (p : path) : path := removelast p.

(** [str(p)] *)
Definition fspath (p : path) : string := String "/"%char (join "/"%char p).

End PyPath.

Abbreviation path := PyPath.path.
Infix "//" := PyPath.div (at level 40, left associativity).

(** ** The configuration objects *)

(** Modelled from the spec: the enumeration [mkosi.config.Cacheonly] is not
    part of the source; the specification (section 6) gives the cache policy
    as the enum [{always, metadataExpireNever, default}]. The code only
    compares the policy with [Cacheonly.always]. *)
Module Cacheonly.
Inductive t : Type := always | metadataExpireNever | default.

Definition eqb (a b : t) : bool :=
  match a, b with
  | always, always | metadataExpireNever, metadataExpireNever | default, default => true
  | _, _ => false
  end.
End Cacheonly.

(** Modelled from the spec: [mkosi.config.Config] is not part of the source;
    these are the settings that [Dnf] reads from it. [tools] is the result of
    [config.tools()], [architecture_is_native] that of
    [config.architecture.is_native()] and [distribution_architecture] that of
    [config.distribution.architecture(config.architecture)]. *)
Record Config : Type := {
  environment : gmap string string;
  tools : string;
  release : string;
  with_recommends : bool;
  repository_key_check : bool;
  repositories : list string;
  cacheonly : Cacheonly.t;
  architecture_is_native : bool;
  distribution_architecture : string;
  with_docs : bool;
  build_sources_ephemeral : bool
}.

(** Modelled from the spec: [mkosi.context.Context] is not part of the source;
    [root] is the install root, [pkgmngr] the tree that holds the package
    manager's configuration and [packages] the local packages directory. *)
Record Context : Type := {
  config : Config;
  root : path;
  pkgmngr : path;
  packages : path
}.

(** Modelled from the spec: [mkosi.installer.rpm.RpmRepository] is not part of
    the source; the specification (section 3) gives a repository descriptor as
    [{id: string, url: string, enabled: bool, gpg-check URLs: ordered list of
    string, ssl client-cert/key/ca paths: optional, priority: optional int}].
    The ssl fields are paths, given here by their [str()]. *)
Record RpmRepository : Type := {
  id : string;
  url : string;
  gpgurls : list string;
  enabled : bool;
  sslcacert : option string;
  sslclientkey : option string;
  sslclientcert : option string;
  priority : option Z
}.

(** Truth values of the optional fields, as [if repo.field:] tests them. A
    [pathlib.Path] is always true, an [int] is true when it is not zero, and
    [None] is false. *)
Definition truthy_path (p : option string) : bool :=
  match p with Some _ => true | None => false end.

Definition truthy_int (n : option Z) : bool :=
  match n with Some z => negb (Z.eqb z 0) | None => false end.

(** ** The file system and the effects of a method

    A file system is a finite map from absolute paths to nodes, regular
    files with their text and directories; the root directory always exists.
    Symbolic links, permissions and full disks are not part of it. A method
    is a function from the state of the file system to the state it leaves
    and its outcome: an exception does not undo what was written before
    it. *)

Inductive node : Type :=
| File (content : string)
| Dir.

Abbreviation FS := (gmap path node).

Inductive exn : Type :=
| FileExistsError
| FileNotFoundError
| NotADirectoryError
| IsADirectoryError
| CalledProcessError (returncode : Z)
| OtherError (what : string).

Inductive result (A : Type) : Type :=
| Returned (a : A)
| Raised (e : exn).
Arguments Returned {A} a.
Arguments Raised {A} e.

Definition IO (A : Type) : Type := FS -> FS * result A.

Definition ret {A} (a : A) : IO A := fun fs => (fs, Returned a).

Definition bind {A B} (m : IO A) (k : A -> IO B) : IO B := fun fs =>
  match m fs with
  | (fs', Returned a) => k a fs'
  | (fs', Raised e) => (fs', Raised e)
  end.

Notation "x <- m ;; k" := (bind m (fun x => k))
  (at level 100, m at next level, right associativity).
Notation "m ;; k" := (bind m (fun _ => k))
  (at level 100, right associativity).

(** [try: body finally: fin]. The outcome of [body] stands unless [fin]
    raises, and [fin] runs on the state that [body] left, whatever the
    outcome. *)
Definition try_finally {A} (body : IO A) (fin : IO unit) : IO A := fun fs =>
  match body fs with
  | (fs1, r) =>
      match fin fs1 with
      | (fs2, Returned _) => (fs2, r)
      | (fs2, Raised e) => (fs2, Raised e)
      end
  end.

(** [for x in l: body(x)] *)
Fixpoint for_each {A} (l : list A) (body : A -> IO unit) : IO unit :=
  match l with
  | [] => ret tt
  | x :: xs => body x ;; for_each xs body
  end.

(** The state a method leaves, and its outcome. *)
Definition state_after {A} (m : IO A) (fs : FS) : FS := fst (m fs).
Definition outcome {A} (m : IO A) (fs : FS) : result A := snd (m fs).

Module Fs.

Definition lookup_node (fs : FS) (p : path) : option node :=
  match p with
  | [] => Some Dir
  | _ => fs !! p
  end.

(** [p.exists()] *)
Definition exists_ (p : path) : IO bool := fun fs =>
  (fs, Returned (match lookup_node fs p with Some _ => true | None => false end)).

(** [p.is_dir()] *)
Definition is_dir (p : path) : IO bool := fun fs =>
  (fs, Returned (match lookup_node fs p with Some Dir => true | _ => false end)).

(** [os.mkdir(p)] *)
Definition os_mkdir (p : path) : IO unit := fun fs =>
  match lookup_node fs p with
  | Some _ => (fs, Raised FileExistsError)
  | None =>
      match lookup_node fs (PyPath.parent p) with
      | Some Dir => (<[p := Dir]> fs, Returned tt)
      | Some (File _) => (fs, Raised NotADirectoryError)
      | None => (fs, Raised FileNotFoundError)
      end
  end.

(** [p.mkdir(parents=False, exist_ok=exist_ok)] *)
Definition mkdir_flat (exist_ok : bool) (p : path) : IO unit := fun fs =>
  match os_mkdir p fs with
  | (fs', Returned _) => (fs', Returned tt)
  | (fs', Raised FileNotFoundError) => (fs', Raised FileNotFoundError)
  | (fs', Raised e) =>
      match is_dir p fs' with
      | (fs'', Returned d) =>
          if negb exist_ok || negb d then (fs'', Raised e) else (fs'', Returned tt)
      | (fs'', Raised e') => (fs'', Raised e')
      end
  end.

(** [p.mkdir(parents=True, exist_ok=exist_ok)], by recursion on the
    components of [p] from the last one: [rp] is [p] reversed, so that the
    parent is the tail. *)
Fixpoint mkdir_parents_rev (exist_ok : bool) (rp : list string) : IO unit := fun fs =>
  let p := rev rp in
  match os_mkdir p fs with
  | (fs', Returned _) => (fs', Returned tt)
  | (fs', Raised FileNotFoundError) =>
      match rp with
      | [] => (fs', Raised FileNotFoundError)
      | _ :: rparent =>
          (mkdir_parents_rev true rparent ;; mkdir_flat exist_ok p) fs'
      end
  | (fs', Raised e) =>
      match is_dir p fs' with
      | (fs'', Returned d) =>
          if negb exist_ok || negb d then (fs'', Raised e) else (fs'', Returned tt)
      | (fs'', Raised e') => (fs'', Raised e')
      end
  end.

(** [p.mkdir(parents=parents, exist_ok=exist_ok)] *)
Definition mkdir (parents exist_ok : bool) (p : path) : IO unit :=
  if parents then mkdir_parents_rev exist_ok (rev p) else mkdir_flat exist_ok p.

(** What is written to an open file: every [f.write(s)] appends to the
    buffer, which reaches the file when it is closed. *)
Definition Writer : Type := string -> string.

Definition write (s : string) : Writer := fun buf => buf +:+ s.

Definition skip : Writer := fun buf => buf.

Definition then_ (a b : Writer) : Writer := fun buf => b (a buf).

Definition when (c : bool) (w : Writer) : Writer := if c then w else skip.

Fixpoint for_ {A} (l : list A) (body : A -> Writer) : Writer :=
  match l with
  | [] => skip
  | x :: xs => then_ (body x) (for_ xs body)
  end.

(** [with p.open("w") as f: body]: the file is created or truncated, and
    holds what [body] wrote when the block is left. *)
Definition with_open_w (p : path) (body : Writer) : IO unit := fun fs =>
  match lookup_node fs p with
  | Some Dir => (fs, Raised IsADirectoryError)
  | _ =>
      match lookup_node fs (PyPath.parent p) with
      | Some Dir => (<[p := File (body "")]> fs, Returned tt)
      | Some (File _) => (fs, Raised NotADirectoryError)
      | None => (fs, Raised FileNotFoundError)
      end
  end.

(** [p.write_text(s)] *)
Definition write_text (p : path) (s : string) : IO unit :=
  with_open_w p (write s).

(** The direct entries of the directory [d]. *)
Definition is_child (d p : path) : bool :=
  bool_decide (p ≠ [] ∧ PyPath.parent p = d).

Definition children (fs : FS) (d : path) : list path :=
  List.filter (is_child d) (map fst (map_to_list fs)).

(** [p.iterdir()]: the entries are listed before the first one is handed
    out; the operating system fixes no order, here it is the order in which
    the finite map enumerates its keys. *)
Definition iterdir (d : path) : IO (list path) := fun fs =>
  match lookup_node fs d with
  | Some Dir => (fs, Returned (children fs d))
  | Some (File _) => (fs, Raised NotADirectoryError)
  | None => (fs, Raised FileNotFoundError)
  end.

(** [p.unlink()] *)
Definition unlink (p : path) : IO unit := fun fs =>
  match lookup_node fs p with
  | Some (File _) => (delete p fs, Returned tt)
  | Some Dir => (fs, Raised IsADirectoryError)
  | None => (fs, Raised FileNotFoundError)
  end.

(** [p.name] of an absolute path. *)
Definition name (p : path) : string := List.last p "".

End Fs.

Infix ";;;" := Fs.then_ (at level 100, right associativity).

(** [subprocess.CompletedProcess] *)
Record CompletedProcess : Type := {
  args : list string;
  returncode : Z
}.

(** [mkosi.types._FILE]: [None], or the descriptor of an open file. *)
Definition _FILE : Type := option Z.

(** Finds the equation that holds in a disjunction of equations. *)
Ltac found := first [reflexivity | left; found | right; found].

(** ** Sample inputs *)

(** The descriptor of the minimal repository scenario. *)
Definition base_repo : RpmRepository :=
  {| id := "base"; url := "baseurl=file:///repo"; gpgurls := ["file:///key"];
     enabled := true; sslcacert := None; sslclientkey := None; sslclientcert := None;
     priority := None |}.

(** A descriptor with client certificates, three keys and priority zero. *)
Definition secure_repo : RpmRepository :=
  {| id := "updates"; url := "mirrorlist=https://mirror/list";
     gpgurls := ["file:///k1"; "file:///k2"; "https://keys/k3"];
     enabled := false; sslcacert := Some "/etc/pki/ca.pem";
     sslclientkey := Some "/etc/pki/client.key"; sslclientcert := Some "/etc/pki/client.pem";
     priority := Some 0%Z |}.

Definition sample_config (env : gmap string string) (policy : Cacheonly.t) : Config :=
  {| environment := env; tools := "/"; release := "40"; with_recommends := false;
     repository_key_check := true; repositories := ["updates-testing"];
     cacheonly := policy; architecture_is_native := true;
     distribution_architecture := "x86_64"; with_docs := false;
     build_sources_ephemeral := false |}.

Definition sample_context (env : gmap string string) (policy : Cacheonly.t) : Context :=
  {| config := sample_config env policy; root := ["work"; "root"];
     pkgmngr := ["work"; "pkgmngr"]; packages := ["work"; "packages"] |}.

(** A tools tree without any of the binaries, and one that has them all
    under [/usr/bin]. *)
Definition no_binary : string -> string -> option string := fun _ _ => None.

Definition usr_bin : string -> string -> option string :=
  fun name _ => Some ("/usr/bin/" +:+ name).

(** A workspace with the three trees and nothing in them. *)
Definition empty_workspace : FS :=
  <[ ["work"; "packages"] := Dir ]>
    (<[ ["work"; "pkgmngr"] := Dir ]>
       (<[ ["work"; "root"] := Dir ]> (<[ ["work"] := Dir ]> ∅))).

(** The collaborators of [invoke]: a sandbox that puts its options behind
    the name of the sandbox program, no mounts, and source mounts that do
    nothing. *)
Definition sample_sandbox : Context -> option bool -> list string -> list string :=
  fun _ _ options => "bwrap" :: options.

Definition sample_mounts : Context -> list string := fun _ => [].

Definition sample_apivfs_cmd : path -> list string := fun _ => [].

Definition sample_enter : Config -> bool -> IO (list string) := fun _ _ => ret [].

Definition sample_exit : Config -> bool -> IO unit := fun _ _ => ret tt.

(** A process that exits with status 0 and touches nothing. *)
Definition run_quiet :
    list string -> list string -> option (gmap string string) -> option _FILE ->
    IO CompletedProcess :=
  fun cmdline _ _ _ fs => (fs, Returned {| args := cmdline; returncode := 0 |}).

(** A process that leaves its logs under the install root, next to a log of
    something else, and exits with the given status: a status other than 0
    is raised by [run] as [CalledProcessError]. *)
Definition run_logging (status : Z) :
    list string -> list string -> option (gmap string string) -> option _FILE ->
    IO CompletedProcess :=
  fun cmdline _ _ _ fs =>
    let fs' :=
      <[ ["work"; "root"; "var"; "log"; "messages"] := File "boot" ]>
        (<[ ["work"; "root"; "var"; "log"; "yum.log"] := File "y" ]>
           (<[ ["work"; "root"; "var"; "log"; "hawkey.log"] := File "h" ]>
              (<[ ["work"; "root"; "var"; "log"; "dnf5.log"] := File "d" ]>
                 (<[ ["work"; "root"; "var"; "log"] := Dir ]>
                    (<[ ["work"; "root"; "var"] := Dir ]> fs))))) in
    if Z.eqb status 0
    then (fs', Returned {| args := cmdline; returncode := 0 |})
    else (fs', Raised (CalledProcessError status)).

(** A process that makes a directory of its logs. *)
Definition run_log_directory :
    list string -> list string -> option (gmap string string) -> option _FILE ->
    IO CompletedProcess :=
  fun cmdline _ _ _ fs =>
    (<[ ["work"; "root"; "var"; "log"; "dnf"] := Dir ]>
       (<[ ["work"; "root"; "var"; "log"] := Dir ]>
          (<[ ["work"; "root"; "var"] := Dir ]> fs)),
     Returned {| args := cmdline; returncode := 0 |}).

(** A tools tree that has [dnf] only. *)
Definition only_dnf : string -> string -> option string :=
  fun name root => if String.eqb name "dnf" then Some (root +:+ "usr/bin/dnf") else None.

(** A workspace after an earlier build: the directory of the repository
    files is there, with a local repository file that somebody has edited. *)
Definition customized_workspace : FS :=
  <[ ["work"; "pkgmngr"; "etc"; "yum.repos.d"; "mkosi-local.repo"] := File "[mine]" ]>
    (<[ ["work"; "pkgmngr"; "etc"; "yum.repos.d"] := Dir ]>
       (<[ ["work"; "pkgmngr"; "etc"] := Dir ]> empty_workspace)).

(** A workspace where a regular file stands where the directory of the
    repository files should be. *)
Definition blocked_workspace : FS :=
  <[ ["work"; "pkgmngr"; "etc"; "yum.repos.d"] := File "not a directory" ]>
    (<[ ["work"; "pkgmngr"; "etc"] := Dir ]> empty_workspace).

(** A workspace with a directory where the local repository file goes. *)
Definition directory_workspace : FS :=
  <[ ["work"; "pkgmngr"; "etc"; "yum.repos.d"; "mkosi-local.repo"] := Dir ]>
    customized_workspace.

(** A configuration for another architecture, without the check of the keys
    and with documentation. *)
Definition cross_config : Config :=
  {| environment := ∅; tools := "/"; release := "9"; with_recommends := true;
     repository_key_check := false; repositories := ["baseos"; "appstream"; "baseos"];
     cacheonly := Cacheonly.default; architecture_is_native := false;
     distribution_architecture := "aarch64"; with_docs := true;
     build_sources_ephemeral := false |}.

Definition cross_context : Context :=
  {| config := cross_config; root := ["work"; "root"];
     pkgmngr := ["work"; "pkgmngr"]; packages := ["work"; "packages"] |}.

(** A cache directory: two repository caches, one of them without its
    [packages] directory, the cache of the local repository, a directory
    without a dash and a regular file with one. *)
Definition cache_workspace : FS :=
  <[ ["cache"; "solv-file"] := File "" ]>
    (<[ ["cache"; "tmp"] := Dir ]>
       (<[ ["cache"; "mkosi-1a2b"] := Dir ]>
          (<[ ["cache"; "updates-3c4d"] := Dir ]>
             (<[ ["cache"; "fedora-5e6f"; "packages"] := Dir ]>
                (<[ ["cache"; "fedora-5e6f"] := Dir ]>
                   (<[ ["cache"] := Dir ]> ∅)))))).

(** A process that leaves a regular file where the log directory should
    be. *)
Definition run_log_file :
    list string -> list string -> option (gmap string string) -> option _FILE ->
    IO CompletedProcess :=
  fun cmdline _ _ _ fs =>
    (<[ ["work"; "root"; "var"; "log"] := File "not a directory" ]>
       (<[ ["work"; "root"; "var"] := Dir ]> fs),
     Returned {| args := cmdline; returncode := 0 |}).

(** ** class Dnf *)

Section Dnf.

(** What the module imports and the source does not hold. *)

(** [mkosi.run.find_binary(name, root=root)]: the path of the binary found
    under the tools root, or [None]. *)
Variable find_binary : string -> string -> option string.

(** [mkosi.log.ARG_DEBUG.get()] *)
Variable ARG_DEBUG : bool.

(** [os.getuid()] *)
Variable getuid : Z.

(** [mkosi.run.run(cmdline, sandbox=, env=, stdout=)]: the process does to
    the file system what it does, and returns or raises. [None] for [env]
    or [stdout] is an argument that the call does not give. *)
Variable run :
  list string -> list string -> option (gmap string string) -> option _FILE ->
  IO CompletedProcess.

(** [context.sandbox(network=, options=)]; [None] for [network] is an
    argument that the call does not give. *)
Variable sandbox : Context -> option bool -> list string -> list string.

(** [cls.mounts(context)], inherited from [PackageManager]. *)
Variable mounts : Context -> list string.

(** [mkosi.sandbox.apivfs_cmd(root)] *)
Variable apivfs_cmd : path -> list string.

(** [mkosi.mounts.finalize_source_mounts(config, ephemeral=)], a context
    manager: what entering it does and gives, and what leaving it does. *)
Variable finalize_source_mounts_enter : Config -> bool -> IO (list string).
Variable finalize_source_mounts_exit : Config -> bool -> IO unit.

(** [a or b] where [a] is an optional string: [None] and [""] are false. *)
Definition or_str (a : option string) (b : string) : string :=
  match a with
  | Some s => if PyStr.truthy s then s else b
  | None => b
  end.

(** [a or b] where [a] is an optional path: only [None] is false. *)
Definition or_path (a : option string) (b : string) : string :=
  match a with
  | Some p => p
  | None => b
  end.

Definition executable (config : Config) : string :=
  let dnf := environment config !! "MKOSI_DNF" in
  let root := tools config in
  PyPath.name
    (or_str dnf
       (or_path (find_binary "dnf5" root)
          (or_path (find_binary "dnf" root) "yum"))).

(** The result is a relative path of one component, given by its name. *)
Definition subdir (config : Config) : string :=
  if String.eqb (executable config) "dnf5" then "libdnf5" else "dnf".

(** [f"{x}"] for an optional value: [None] prints as ["None"]. *)
Definition fmt_path (p : option string) : string :=
  match p with Some s => s | None => "None" end.

Definition fmt_int (n : option Z) : string :=
  match n with Some z => PyStr.str_int z | None => "None" end.

(** [enumerate(l)] *)
Definition enumerate {A} (l : list A) : list (nat * A) :=
  combine (seq 0 (length l)) l.

(** The f-string that [setup] hands to [textwrap.dedent]: every line of
    the literal is indented by 28 spaces, the closing quotes included. *)
Definition repo_template (repo : RpmRepository) : string :=
  let ind := PyStr.spaces 28 in
  ind +:+ "[" +:+ id repo +:+ "]" +:+ PyStr.nl +:+
  ind +:+ "name=" +:+ id repo +:+ PyStr.nl +:+
  ind +:+ url repo +:+ PyStr.nl +:+
  ind +:+ "gpgcheck=1" +:+ PyStr.nl +:+
  ind +:+ "enabled=" +:+ PyStr.str_int_of_bool (enabled repo) +:+ PyStr.nl +:+
  ind.

(** The body of [for repo in repositories:]. *)
Definition write_repo (repo : RpmRepository) : Fs.Writer :=
  Fs.write (Textwrap.dedent (repo_template repo)) ;;;
  Fs.when (truthy_path (sslcacert repo))
    (Fs.write ("sslcacert=" +:+ fmt_path (sslcacert repo) +:+ PyStr.nl)) ;;;
  Fs.when (truthy_path (sslclientcert repo))
    (Fs.write ("sslclientcert=" +:+ fmt_path (sslclientcert repo) +:+ PyStr.nl)) ;;;
  Fs.when (truthy_path (sslclientkey repo))
    (Fs.write ("sslclientkey=" +:+ fmt_path (sslclientkey repo) +:+ PyStr.nl)) ;;;
  Fs.when (truthy_int (priority repo))
    (Fs.write ("priority=" +:+ fmt_int (priority repo) +:+ PyStr.nl)) ;;;
  Fs.for_ (enumerate (gpgurls repo)) (fun '(i, url) =>
    Fs.write (if Nat.eqb i 0 then "gpgkey=" else PyStr.spaces (String.length "gpgkey=")) ;;;
    Fs.write (url +:+ PyStr.nl)) ;;;
  Fs.write PyStr.nl.

Definition setup (context : Context) (repositories : list RpmRepository)
    (filelists : bool) : IO unit :=
  Fs.mkdir true true (pkgmngr context // "etc/dnf/vars") ;;
  Fs.mkdir true true (pkgmngr context // "etc/yum.repos.d") ;;
  let config_ := pkgmngr context // "etc/dnf/dnf.conf" in
  (present <- Fs.exists_ config_ ;;
   if negb present then
     Fs.mkdir true true (PyPath.parent config_) ;;
     Fs.with_open_w config_
       (Fs.when (PyStr.endswith (executable (config context)) "dnf5" && filelists)
          (Fs.write ("[main]" +:+ PyStr.nl +:+
                     "optional_metadata_types=filelists" +:+ PyStr.nl)))
   else ret tt) ;;
  let repofile := pkgmngr context // "etc/yum.repos.d/mkosi.repo" in
  (present <- Fs.exists_ repofile ;;
   if negb present then
     Fs.mkdir true true (PyPath.parent repofile) ;;
     Fs.with_open_w repofile (Fs.for_ repositories write_repo)
   else ret tt).

Definition cmd (context : Context) : list string :=
  let dnf := executable (config context) in
  let cmdline := [
    "env";
    "HOME=/";
    dnf;
    "--assumeyes";
    "--best";
    "--releasever=" +:+ release (config context);
    "--installroot=" +:+ PyPath.fspath (root context);
    "--setopt=keepcache=1";
    "--setopt=logdir=/var/log";
    "--setopt=cachedir=/var/cache/" +:+ subdir (config context);
    "--setopt=persistdir=/var/lib/" +:+ subdir (config context);
    "--setopt=install_weak_deps=" +:+ PyStr.str_int_of_bool (with_recommends (config context));
    "--setopt=check_config_file_age=0";
    if PyStr.endswith dnf "dnf5" then "--disable-plugin=*" else "--disableplugin=*";
    if PyStr.endswith dnf "dnf5" then "--enable-plugin=builddep" else "--enableplugin=builddep"
  ] in
  let cmdline := cmdline ++ (if ARG_DEBUG then ["--setopt=debuglevel=10"] else []) in
  let cmdline := cmdline ++
    (if negb (repository_key_check (config context)) then ["--nogpgcheck"] else []) in
  let cmdline := cmdline ++
    (match repositories (config context) with
     | [] => []
     | repos =>
         let opt := if PyStr.endswith dnf "dnf5" then "--enable-repo" else "--enablerepo" in
         map (fun repo => opt +:+ "=" +:+ repo) repos
     end) in
  let cmdline := cmdline ++
    (if Cacheonly.eqb (cacheonly (config context)) Cacheonly.always
     then ["--cacheonly"]
     else ["--setopt=metadata_expire=never"] ++
          (if String.eqb dnf "dnf5" then ["--setopt=cacheonly=metadata"] else [])) in
  let cmdline := cmdline ++
    (if negb (architecture_is_native (config context))
     then ["--forcearch=" +:+ distribution_architecture (config context)] else []) in
  let cmdline := cmdline ++
    (if negb (with_docs (config context))
     then [if PyStr.endswith dnf "dnf5" then "--no-docs" else "--nodocs"] else []) in
  let cmdline := cmdline ++
    (if PyStr.endswith dnf "dnf5" then ["--use-host-config"]
     else ["--config=/etc/dnf/dnf.conf";
           "--setopt=reposdir=/etc/yum.repos.d";
           "--setopt=varsdir=/etc/dnf/vars"]) in
  cmdline.

(** The [finally:] block of [invoke]. *)
Definition remove_logs (context : Context) : IO unit :=
  present <- Fs.exists_ (root context // "var/log") ;;
  if present then
    entries <- Fs.iterdir (root context // "var/log") ;;
    for_each entries (fun p =>
      if existsb (fun prefix => PyStr.startswith (Fs.name p) prefix) ["dnf"; "hawkey"; "yum"]
      then Fs.unlink p
      else ret tt)
  else ret tt.

(** The body of the [try:] block of [invoke]. *)
Definition invoke_try (context : Context) (operation : string) (arguments : list string)
    (apivfs : bool) (stdout : _FILE) : IO CompletedProcess :=
  let ephemeral := Z.eqb getuid 0 && build_sources_ephemeral (config context) in
  sources <- finalize_source_mounts_enter (config context) ephemeral ;;
  try_finally
    (run
       (cmd context ++ [operation] ++ arguments)
       (sandbox context (Some true)
          (["--bind"; PyPath.fspath (root context); PyPath.fspath (root context)] ++
           mounts context ++
           sources ++
           ["--chdir"; "/work/src"])
        ++ (if apivfs then apivfs_cmd (root context) else []))
       (Some (environment (config context)))
       (Some stdout))
    (finalize_source_mounts_exit (config context) ephemeral).

Definition invoke (context : Context) (operation : string) (arguments : list string)
    (apivfs : bool) (stdout : _FILE) : IO CompletedProcess :=
  try_finally
    (invoke_try context operation arguments apivfs stdout)
    (remove_logs context).

Definition sync (context : Context) (options : list string) : IO unit :=
  invoke context "makecache"
    (["--refresh"] ++
     (if String.eqb (executable (config context)) "dnf5"
      then ["--setopt=cacheonly=none"] else []) ++
     options)
    false None ;;
  ret tt.

(** The literal that [createrepo] hands to [textwrap.dedent]: every line is
    indented by 16 spaces, the closing quotes included. *)
Definition local_repo_template : string :=
  let ind := PyStr.spaces 16 in
  ind +:+ "[mkosi]" +:+ PyStr.nl +:+
  ind +:+ "name=mkosi" +:+ PyStr.nl +:+
  ind +:+ "baseurl=file:///work/packages" +:+ PyStr.nl +:+
  ind +:+ "gpgcheck=0" +:+ PyStr.nl +:+
  ind +:+ "metadata_expire=never" +:+ PyStr.nl +:+
  ind +:+ "priority=50" +:+ PyStr.nl +:+
  ind.

Definition createrepo (context : Context) : IO unit :=
  run ["createrepo_c"; PyPath.fspath (packages context)]
    (sandbox context None
       ["--bind"; PyPath.fspath (packages context); PyPath.fspath (packages context)])
    None None ;;
  Fs.write_text (pkgmngr context // "etc/yum.repos.d/mkosi-local.repo")
    (Textwrap.dedent local_repo_template) ;;
  sync context ["--disablerepo=*"; "--enablerepo=mkosi"].

(** ** Notions used by the statements *)

(** The descriptor [repo] with other gpg URLs. *)
Definition with_gpgurls (repo : RpmRepository) (urls : list string) : RpmRepository :=
  {| id := id repo; url := url repo; gpgurls := urls; enabled := enabled repo;
     sslcacert := sslcacert repo; sslclientkey := sslclientkey repo;
     sslclientcert := sslclientcert repo; priority := priority repo |}.

(** The descriptor [repo] with another priority. *)
Definition with_priority (repo : RpmRepository) (prio : option Z) : RpmRepository :=
  {| id := id repo; url := url repo; gpgurls := gpgurls repo; enabled := enabled repo;
     sslcacert := sslcacert repo; sslclientkey := sslclientkey repo;
     sslclientcert := sslclientcert repo; priority := prio |}.

(** A writer that appends the text [s] to whatever was written before. *)
Definition emits (w : Fs.Writer) (s : string) : Prop :=
  forall buf, w buf = buf +:+ s.

(** What [write_repo] writes before the loop over the gpg URLs. *)
Definition stanza_head (repo : RpmRepository) : string :=
  Textwrap.dedent (repo_template repo) +:+
  (if truthy_path (sslcacert repo)
   then "sslcacert=" +:+ fmt_path (sslcacert repo) +:+ PyStr.nl else "") +:+
  (if truthy_path (sslclientcert repo)
   then "sslclientcert=" +:+ fmt_path (sslclientcert repo) +:+ PyStr.nl else "") +:+
  (if truthy_path (sslclientkey repo)
   then "sslclientkey=" +:+ fmt_path (sslclientkey repo) +:+ PyStr.nl else "") +:+
  (if truthy_int (priority repo)
   then "priority=" +:+ fmt_int (priority repo) +:+ PyStr.nl else "").

(** [fs'] is [fs] with some directories added: nothing that exists in [fs]
    changes. *)
Definition only_adds_dirs (fs fs' : FS) : Prop :=
  forall q, fs' !! q = fs !! q \/ (fs !! q = None /\ fs' !! q = Some Dir).

(** No regular file stands where [p] or one of its ancestors should be. *)
Definition no_file_on (fs : FS) (p : path) : Prop :=
  forall q c, q `prefix_of` p -> fs !! q <> Some (File c).

(** The shape of the two blocks of [setup] that write a file: [if not
    p.exists(): p.parent.mkdir(exist_ok=True, parents=True); with
    p.open("w") as f: body]. *)
Definition write_if_absent (p : path) (body : Fs.Writer) : IO unit :=
  present <- Fs.exists_ p ;;
  if negb present then
    Fs.mkdir true true (PyPath.parent p) ;;
    Fs.with_open_w p body
  else ret tt.

(** What [setup] writes into a new [dnf.conf]. *)
Definition conf_body (context : Context) (filelists : bool) : Fs.Writer :=
  Fs.when (PyStr.endswith (executable (config context)) "dnf5" && filelists)
    (Fs.write ("[main]" +:+ PyStr.nl +:+
               "optional_metadata_types=filelists" +:+ PyStr.nl)).

(** The four paths of [setup], by their components below [pkgmngr]. *)
Definition vars_dir (context : Context) : path := pkgmngr context ++ ["etc"; "dnf"; "vars"].
Definition repos_dir (context : Context) : path := pkgmngr context ++ ["etc"; "yum.repos.d"].
Definition dnf_conf (context : Context) : path := pkgmngr context ++ ["etc"; "dnf"; "dnf.conf"].
Definition mkosi_repo (context : Context) : path :=
  pkgmngr context ++ ["etc"; "yum.repos.d"; "mkosi.repo"].

(** A method that changes nothing of what exists: it only adds entries. *)
Definition only_adds {A} (m : IO A) : Prop :=
  forall fs fs' r, m fs = (fs', r) -> fs ⊆ fs'.

(** The name of [p] starts with one of the prefixes of the log files. *)
Definition is_log (p : path) : bool :=
  existsb (fun prefix => PyStr.startswith (Fs.name p) prefix) ["dnf"; "hawkey"; "yum"].

(** The loop of [remove_logs] over the entries [entries]. *)
Definition unlink_logs (entries : list path) : IO unit :=
  for_each entries (fun p => if is_log p then Fs.unlink p else ret tt).

(** ** Proof steps that recur *)

(** Closes a goal whose hypothesis [H] puts a flag in a part of the command
    line that cannot hold it. *)
Ltac absent_flag H :=
  repeat match type of H with
    | In _ (_ ++ _) => apply in_app_or in H; destruct H as [H|H]
    | In _ (map _ _) => apply in_map_iff in H; destruct H as (? & H & _)
    | In _ (_ :: _) => destruct H as [H|H]
    | In _ [] => destruct H
    | context [if ?c then _ else _] => destruct c
    | context [match ?l with [] => _ | _ :: _ => _ end] => destruct l
    | _ = _ => cbv [String.append] in H; discriminate H
    end.

(** Paths below the same directory that differ in their components. *)
Ltac not_prefix :=
  let H := fresh "H" in
  intros H; apply prefix_app_inv in H; destruct H as [? H]; discriminate H.

Ltac other_path :=
  let H := fresh "H" in
  intros H; first [apply app_inv_head in H; discriminate H
                  | apply (f_equal (@length string)) in H; rewrite length_app in H;
                    cbn [length] in H; lia].


(** ** The rest of the class *)

(** [[f(x) for x in l if c(x)]] where the condition reads the file system. *)
Fixpoint comprehension {A B} (l : list A) (c : A -> IO bool) (f : A -> B) : IO (list B) :=
  match l with
  | [] => ret []
  | x :: xs =>
      keep <- c x ;;
      rest <- comprehension xs c f ;;
      ret (if keep then f x :: rest else rest)
  end.

Definition cache_subdirs (cache : path) : IO (list path) :=
  entries <- Fs.iterdir cache ;;
  comprehension entries
    (fun p =>
       d <- Fs.is_dir p ;;
       ret (d && PyStr.contains_str "-" (Fs.name p)
              && negb (PyStr.contains_str "mkosi" (Fs.name p))))
    (fun p => p // "packages").

(** ** More notions used by the statements *)

(** The parts of the command line of [cmd], in the order in which [cmd]
    puts them together. *)
Definition cmd_fixed (context : Context) : list string :=
  let dnf := executable (config context) in
  [ "--assumeyes";
    "--best";
    "--releasever=" +:+ release (config context);
    "--installroot=" +:+ PyPath.fspath (root context);
    "--setopt=keepcache=1";
    "--setopt=logdir=/var/log";
    "--setopt=cachedir=/var/cache/" +:+ subdir (config context);
    "--setopt=persistdir=/var/lib/" +:+ subdir (config context);
    "--setopt=install_weak_deps=" +:+ PyStr.str_int_of_bool (with_recommends (config context));
    "--setopt=check_config_file_age=0";
    if PyStr.endswith dnf "dnf5" then "--disable-plugin=*" else "--disableplugin=*";
    if PyStr.endswith dnf "dnf5" then "--enable-plugin=builddep" else "--enableplugin=builddep" ].

Definition cmd_debug : list string :=
  if ARG_DEBUG then ["--setopt=debuglevel=10"] else [].

Definition cmd_gpg (context : Context) : list string :=
  if negb (repository_key_check (config context)) then ["--nogpgcheck"] else [].

Definition cmd_repos (context : Context) : list string :=
  let opt := if PyStr.endswith (executable (config context)) "dnf5"
             then "--enable-repo" else "--enablerepo" in
  map (fun repo => opt +:+ "=" +:+ repo) (repositories (config context)).

Definition cmd_cache (context : Context) : list string :=
  if Cacheonly.eqb (cacheonly (config context)) Cacheonly.always
  then ["--cacheonly"]
  else "--setopt=metadata_expire=never" ::
       (if String.eqb (executable (config context)) "dnf5"
        then ["--setopt=cacheonly=metadata"] else []).

Definition cmd_arch (context : Context) : list string :=
  if negb (architecture_is_native (config context))
  then ["--forcearch=" +:+ distribution_architecture (config context)] else [].

Definition cmd_docs (context : Context) : list string :=
  if negb (with_docs (config context))
  then [if PyStr.endswith (executable (config context)) "dnf5" then "--no-docs" else "--nodocs"]
  else [].

Definition cmd_trailer (context : Context) : list string :=
  if PyStr.endswith (executable (config context)) "dnf5" then ["--use-host-config"]
  else ["--config=/etc/dnf/dnf.conf";
        "--setopt=reposdir=/etc/yum.repos.d";
        "--setopt=varsdir=/etc/dnf/vars"].

(** The file system is a tree: the root is not an entry of the map, and
    whatever exists lies in a directory. *)
Definition tree (fs : FS) : Prop :=
  fs !! ([] : path) = None /\
  forall p x, fs !! p = Some x -> Fs.lookup_node fs (PyPath.parent p) = Some Dir.

(** A method that keeps the file system a tree. *)
Definition keeps_tree {A} (m : IO A) : Prop :=
  forall fs fs' r, m fs = (fs', r) -> tree fs -> tree fs'.

(** ** More proof steps that recur *)

(** Unfolds the parts of the command line. *)
Ltac cmd_unfold :=
  unfold cmd_fixed, cmd_debug, cmd_gpg, cmd_repos, cmd_cache, cmd_arch, cmd_docs,
    cmd_trailer.

Ltac cmd_unfold_in H :=
  unfold cmd_fixed, cmd_debug, cmd_gpg, cmd_repos, cmd_cache, cmd_arch, cmd_docs,
    cmd_trailer in H.

(** Proves a property of all the tokens of one part of the command line,
    when the property of each token is decided by its first characters. *)
Ltac each_token :=
  cmd_unfold;
  repeat match goal with
    | |- context [if ?c then _ else _] => destruct c
    end;
  rewrite ?List.Forall_map;
  first [ solve [repeat constructor]
        | apply List.Forall_forall; intros ? _; reflexivity ].

(** The condition of the comprehension of [cache_subdirs], on the file
    system [fs]. *)
Definition is_package_cache (fs : FS) (p : path) : bool :=
  match Fs.lookup_node fs p with Some Dir => true | _ => false end
  && PyStr.contains_str "-" (Fs.name p)
  && negb (PyStr.contains_str "mkosi" (Fs.name p)).

(** * Properties *)

(** ** Strings and paths *)

Lemma split_no_sep (c : ascii) (s w : string) :
  In w (PyStr.split c s) -> PyStr.contains c w = false.
Proof.
  revert w. induction s as [|a rest IH]; simpl; intros w Hw.
  - destruct Hw as [<-|[]]. reflexivity.
  - destruct (Ascii.eqb a c) eqn:Hac.
    + destruct Hw as [<-|Hw]; [reflexivity|]. now apply IH.
    + destruct (PyStr.split c rest) as [|x xs] eqn:Hs.
      * destruct Hw as [<-|[]]. simpl. now rewrite Hac.
      * destruct Hw as [<-|Hw].
        -- simpl. rewrite Hac. apply IH. now left.
        -- apply IH. now right.
Qed.

Lemma last_In_or_default {A} (l : list A) (d : A) :
  List.last l d = d \/ In (List.last l d) l.
Proof.
  induction l as [|x [|y l] IH]; simpl; auto.
  destruct IH as [IH|IH]; auto.
Qed.

Lemma name_no_slash (s : string) : PyStr.contains "/"%char (PyPath.name s) = false.
Proof.
  unfold PyPath.name.
  destruct (last_In_or_default (PyPath.parts s) "") as [->|Hin]; [reflexivity|].
  unfold PyPath.parts in Hin. apply List.filter_In in Hin as [Hin _].
  now apply split_no_sep in Hin.
Qed.

Lemma parent_div_file (p : path) (d f : string) (ds : list string) :
  PyPath.parent (p ++ ds ++ [f]) = p ++ ds.
Proof.
  unfold PyPath.parent. rewrite app_assoc. apply removelast_last.
Qed.

Lemma append_cons (x : ascii) (a b : string) : String x a +:+ b = String x (a +:+ b).
Proof. reflexivity. Qed.

Lemma append_empty_l (a : string) : "" +:+ a = a.
Proof. reflexivity. Qed.

Lemma append_assoc (a b c : string) : (a +:+ b) +:+ c = a +:+ (b +:+ c).
Proof.
  induction a as [|x a IH]; [reflexivity|].
  now rewrite !append_cons, IH.
Qed.

Lemma append_empty_r (a : string) : a +:+ "" = a.
Proof.
  induction a as [|x a IH]; [reflexivity|].
  now rewrite append_cons, IH.
Qed.

Lemma concat_cons (x : string) (l : list string) :
  String.concat "" (x :: l) = x +:+ String.concat "" l.
Proof.
  destruct l as [|y l]; cbn [String.concat].
  - now rewrite append_empty_r.
  - reflexivity.
Qed.

(** ** Writers append *)

Lemma emits_write (s : string) : emits (Fs.write s) s.
Proof. intros buf. reflexivity. Qed.

Lemma emits_skip : emits Fs.skip "".
Proof. intros buf. unfold Fs.skip. now rewrite append_empty_r. Qed.

Lemma emits_then (a b : Fs.Writer) (s t : string) :
  emits a s -> emits b t -> emits (a ;;; b) (s +:+ t).
Proof.
  intros Ha Hb buf. unfold Fs.then_. now rewrite Ha, Hb, append_assoc.
Qed.

Lemma emits_when (c : bool) (w : Fs.Writer) (s : string) :
  emits w s -> emits (Fs.when c w) (if c then s else "").
Proof. destruct c; simpl; [trivial | intros _; apply emits_skip]. Qed.

Lemma emits_for {A} (l : list A) (body : A -> Fs.Writer) (text : A -> string) :
  (forall x, emits (body x) (text x)) ->
  emits (Fs.for_ l body) (String.concat "" (map text l)).
Proof.
  intros Hbody. induction l as [|x l IH].
  - apply emits_skip.
  - intros buf. simpl Fs.for_. rewrite (emits_then _ _ _ _ (Hbody x) IH buf).
    cbn [map]. now rewrite concat_cons.
Qed.

Lemma emits_unique (w : Fs.Writer) (s t : string) : emits w s -> emits w t -> s = t.
Proof.
  intros Hs Ht. specialize (Hs ""). specialize (Ht "").
  rewrite append_empty_l in Hs, Ht. congruence.
Qed.

(** The lines that the loop over [enumerate(repo.gpgurls)] writes: two writes
    for every URL. *)
Lemma gpg_loop_from (k : nat) (urls : list string) :
  emits
    (Fs.for_ (combine (seq (S k) (length urls)) urls) (fun '(i, url) =>
       Fs.write (if Nat.eqb i 0 then "gpgkey=" else PyStr.spaces (String.length "gpgkey=")) ;;;
       Fs.write (url +:+ PyStr.nl)))
    (String.concat "" (map (fun u => "       " +:+ u +:+ PyStr.nl) urls)).
Proof.
  revert k. induction urls as [|u urls IH]; intros k.
  - apply emits_skip.
  - intros buf. cbn [length seq combine Fs.for_].
    unfold Fs.then_ at 1. rewrite (IH (S k)).
    unfold Fs.then_, Fs.write. cbn [Nat.eqb].
    cbn [map]. rewrite concat_cons, !append_assoc. reflexivity.
Qed.

(** ** The stanza of one repository *)

Lemma gpg_loop_emits (urls : list string) :
  emits
    (Fs.for_ (enumerate urls) (fun '(i, url) =>
       Fs.write (if Nat.eqb i 0 then "gpgkey=" else PyStr.spaces (String.length "gpgkey=")) ;;;
       Fs.write (url +:+ PyStr.nl)))
    (match urls with
     | [] => ""
     | u0 :: rest =>
         String.concat ""
           (("gpgkey=" +:+ u0 +:+ PyStr.nl) ::
            map (fun u => "       " +:+ u +:+ PyStr.nl) rest)
     end).
Proof.
  destruct urls as [|u0 rest].
  - apply emits_skip.
  - intros buf. unfold enumerate. cbn [length seq combine Fs.for_].
    unfold Fs.then_ at 1. rewrite (gpg_loop_from 0 rest).
    unfold Fs.then_, Fs.write. cbn [Nat.eqb].
    rewrite concat_cons, !append_assoc. reflexivity.
Qed.

Lemma write_repo_emits (repo : RpmRepository) :
  emits (write_repo repo)
    (stanza_head repo +:+
     (match gpgurls repo with
      | [] => ""
      | u0 :: rest =>
          String.concat ""
            (("gpgkey=" +:+ u0 +:+ PyStr.nl) ::
             map (fun u => "       " +:+ u +:+ PyStr.nl) rest)
      end) +:+
     PyStr.nl).
Proof.
  unfold write_repo, stanza_head. rewrite !append_assoc.
  repeat (apply emits_then;
          [first [apply emits_write | apply emits_when, emits_write] |]).
  apply emits_then; [apply gpg_loop_emits | apply emits_write].
Qed.

(** The four optional lines, field by field: an ssl line is there exactly
    when its field is, the priority line when the priority is there and is
    not zero. *)
Lemma stanza_head_fields (repo : RpmRepository) :
  stanza_head repo =
  Textwrap.dedent (repo_template repo) +:+
  (match sslcacert repo with Some p => "sslcacert=" +:+ p +:+ PyStr.nl | None => "" end) +:+
  (match sslclientcert repo with
   | Some p => "sslclientcert=" +:+ p +:+ PyStr.nl | None => "" end) +:+
  (match sslclientkey repo with
   | Some p => "sslclientkey=" +:+ p +:+ PyStr.nl | None => "" end) +:+
  (match priority repo with
   | Some z => if Z.eqb z 0 then "" else "priority=" +:+ PyStr.str_int z +:+ PyStr.nl
   | None => ""
   end).
Proof.
  unfold stanza_head.
  destruct (sslcacert repo), (sslclientcert repo), (sslclientkey repo),
    (priority repo) as [z|]; cbn [truthy_path truthy_int fmt_path fmt_int];
    try destruct (Z.eqb z 0); reflexivity.
Qed.

Lemma contains_append (c : ascii) (a b : string) :
  PyStr.contains c (a +:+ b) = PyStr.contains c a || PyStr.contains c b.
Proof.
  induction a as [|x a IH]; [reflexivity|].
  rewrite append_cons. cbn [PyStr.contains]. now rewrite IH, orb_assoc.
Qed.

(** A text without a newline, followed by a newline: the first line. *)
Lemma split_first_line (a s : string) :
  PyStr.contains PyStr.LF a = false ->
  PyStr.split PyStr.LF (a +:+ PyStr.nl +:+ s) = a :: PyStr.split PyStr.LF s.
Proof.
  induction a as [|x a IH]; intros Ha.
  - reflexivity.
  - cbn [PyStr.contains] in Ha. apply orb_false_elim in Ha as [Hx Ha].
    rewrite append_cons. cbn [PyStr.split]. rewrite Hx, (IH Ha). reflexivity.
Qed.

Lemma split_lines (ls : list string) :
  Forall (fun l => PyStr.contains PyStr.LF l = false) ls ->
  PyStr.split PyStr.LF (String.concat "" (map (fun l => l +:+ PyStr.nl) ls)) = ls ++ [""].
Proof.
  induction 1 as [|l ls Hl _ IH]; [reflexivity|].
  cbn [map]. rewrite concat_cons, append_assoc, (split_first_line _ _ Hl), IH.
  reflexivity.
Qed.


(** ** The command line *)


(** ** Directories *)

Lemma only_adds_dirs_refl (fs : FS) : only_adds_dirs fs fs.
Proof. intros q. now left. Qed.

Lemma only_adds_dirs_trans (fs1 fs2 fs3 : FS) :
  only_adds_dirs fs1 fs2 -> only_adds_dirs fs2 fs3 -> only_adds_dirs fs1 fs3.
Proof.
  intros H12 H23 q. destruct (H12 q) as [E12|[N1 D2]], (H23 q) as [E23|[N2 D3]].
  - left. congruence.
  - right. split; congruence.
  - right. split; congruence.
  - congruence.
Qed.

Lemma only_adds_dirs_keeps (fs fs' : FS) (q : path) (x : node) :
  only_adds_dirs fs fs' -> fs !! q = Some x -> fs' !! q = Some x.
Proof. intros H Hq. destruct (H q) as [E|[N _]]; congruence. Qed.

Lemma only_adds_dirs_file (fs fs' : FS) (q : path) (c : string) :
  only_adds_dirs fs fs' -> fs' !! q = Some (File c) -> fs !! q = Some (File c).
Proof. intros H Hq. destruct (H q) as [E|[_ D]]; congruence. Qed.

Lemma only_adds_dirs_node (fs fs' : FS) (q : path) (x : node) :
  only_adds_dirs fs fs' -> Fs.lookup_node fs q = Some x -> Fs.lookup_node fs' q = Some x.
Proof.
  destruct q as [|a q]; [trivial|]. cbn [Fs.lookup_node]. apply only_adds_dirs_keeps.
Qed.

Lemma lookup_node_None (fs : FS) (p : path) :
  Fs.lookup_node fs p = None -> fs !! p = None.
Proof. destruct p; [discriminate | trivial]. Qed.

Lemma os_mkdir_cases (p : path) (fs fs' : FS) (r : result unit) :
  Fs.os_mkdir p fs = (fs', r) ->
  (r = Returned tt /\ fs' = <[p := Dir]> fs /\ fs !! p = None /\
   Fs.lookup_node fs (PyPath.parent p) = Some Dir) \/
  (fs' = fs /\
   ((r = Raised FileExistsError /\ Fs.lookup_node fs p <> None) \/
    (r = Raised NotADirectoryError /\ Fs.lookup_node fs p = None /\
     exists c, Fs.lookup_node fs (PyPath.parent p) = Some (File c)) \/
    (r = Raised FileNotFoundError /\ Fs.lookup_node fs p = None /\
     Fs.lookup_node fs (PyPath.parent p) = None))).
Proof.
  unfold Fs.os_mkdir.
  destruct (Fs.lookup_node fs p) as [x|] eqn:Hp.
  - intros [= <- <-]. right. split; [reflexivity|]. left. split; congruence.
  - destruct (Fs.lookup_node fs (PyPath.parent p)) as [[c|]|] eqn:Hpar; intros [= <- <-].
    + right. split; [reflexivity|]. right. left. eauto.
    + left. auto using lookup_node_None.
    + right. split; [reflexivity|]. right. right. auto.
Qed.

Lemma os_mkdir_only_adds (p : path) (fs fs' : FS) (r : result unit) :
  Fs.os_mkdir p fs = (fs', r) -> only_adds_dirs fs fs'.
Proof.
  intros H. apply os_mkdir_cases in H as [(_ & -> & Hnone & _)|[-> _]].
  - intros q. destruct (decide (p = q)) as [<-|Hne].
    + right. split; [exact Hnone | apply lookup_insert_eq].
    + left. now apply lookup_insert_ne.
  - apply only_adds_dirs_refl.
Qed.

Lemma mkdir_flat_only_adds (exist_ok : bool) (p : path) (fs fs' : FS) (r : result unit) :
  Fs.mkdir_flat exist_ok p fs = (fs', r) -> only_adds_dirs fs fs'.
Proof.
  unfold Fs.mkdir_flat, Fs.is_dir.
  destruct (Fs.os_mkdir p fs) as [fs1 r1] eqn:Hos.
  apply os_mkdir_only_adds in Hos.
  destruct r1 as [[]|[]]; try destruct (_ || _); intros [= <- <-]; exact Hos.
Qed.

Lemma mkdir_parents_only_adds (exist_ok : bool) (rp : list string) (fs fs' : FS)
    (r : result unit) :
  Fs.mkdir_parents_rev exist_ok rp fs = (fs', r) -> only_adds_dirs fs fs'.
Proof.
  revert exist_ok fs fs' r. induction rp as [|a rp IH]; intros exist_ok fs fs' r;
    cbn [Fs.mkdir_parents_rev]; unfold Fs.is_dir;
    destruct (Fs.os_mkdir _ fs) as [fs1 r1] eqn:Hos;
    apply os_mkdir_only_adds in Hos.
  - destruct r1 as [[]|[]]; try destruct (_ || _); intros [= <- <-]; exact Hos.
  - destruct r1 as [[]|[]]; try destruct (_ || _); try (intros [= <- <-]; exact Hos).
    unfold bind. destruct (Fs.mkdir_parents_rev true rp fs1) as [fs2 r2] eqn:Hrec.
    apply IH in Hrec. destruct r2 as [[]|e].
    + intros Hflat. apply mkdir_flat_only_adds in Hflat.
      eauto using only_adds_dirs_trans.
    + intros [= <- <-]. eauto using only_adds_dirs_trans.
Qed.

Lemma lookup_node_insert_dir (fs : FS) (p : path) :
  Fs.lookup_node (<[p := Dir]> fs) p = Some Dir.
Proof. destruct p; [reflexivity | apply lookup_insert_eq]. Qed.

Lemma mkdir_flat_returned (p : path) (fs fs' : FS) :
  Fs.mkdir_flat true p fs = (fs', Returned tt) -> Fs.lookup_node fs' p = Some Dir.
Proof.
  unfold Fs.mkdir_flat, Fs.is_dir.
  destruct (Fs.os_mkdir p fs) as [fs1 r1] eqn:Hos.
  apply os_mkdir_cases in Hos as [(-> & -> & _)|[-> [(-> & _)|[(-> & _)|(-> & _)]]]];
    try discriminate.
  - intros [= <-]. apply lookup_node_insert_dir.
  - destruct (Fs.lookup_node fs p) as [[c|]|] eqn:Hl; cbn [negb orb];
      intros [= <-]; exact Hl.
  - destruct (Fs.lookup_node fs p) as [[c|]|] eqn:Hl; cbn [negb orb];
      intros [= <-]; exact Hl.
Qed.

Lemma mkdir_parents_returned (rp : list string) (fs fs' : FS) :
  Fs.mkdir_parents_rev true rp fs = (fs', Returned tt) ->
  Fs.lookup_node fs' (rev rp) = Some Dir.
Proof.
  destruct rp as [|a rp]; [reflexivity|].
  cbn [Fs.mkdir_parents_rev]. unfold Fs.is_dir.
  destruct (Fs.os_mkdir _ fs) as [fs1 r1] eqn:Hos.
  apply os_mkdir_cases in Hos as [(-> & -> & _)|[-> [(-> & _)|[(-> & _)|(-> & _)]]]].
  - intros [= <-]. apply lookup_node_insert_dir.
  - destruct (Fs.lookup_node fs (rev (a :: rp))) as [[c|]|] eqn:Hl;
      cbn [negb orb]; intros [= <-]; exact Hl.
  - destruct (Fs.lookup_node fs (rev (a :: rp))) as [[c|]|] eqn:Hl;
      cbn [negb orb]; intros [= <-]; exact Hl.
  - unfold bind. destruct (Fs.mkdir_parents_rev true rp fs) as [fs2 [[]|e]]; [|discriminate].
    apply mkdir_flat_returned.
Qed.

Lemma mkdir_parents_existing (rp : list string) (fs : FS) :
  Fs.lookup_node fs (rev rp) = Some Dir ->
  Fs.mkdir_parents_rev true rp fs = (fs, Returned tt).
Proof.
  intros Hdir.
  destruct rp as [|a rp]; cbn [Fs.mkdir_parents_rev];
    unfold Fs.os_mkdir, Fs.is_dir; rewrite Hdir; cbn beta iota; rewrite Hdir; reflexivity.
Qed.

Lemma no_file_on_prefix (fs : FS) (p q : path) :
  q `prefix_of` p -> no_file_on fs p -> no_file_on fs q.
Proof. intros Hqp Hp q' c Hq'. apply Hp. now transitivity q. Qed.

Lemma no_file_on_only_adds (fs fs' : FS) (p : path) :
  only_adds_dirs fs fs' -> no_file_on fs p -> no_file_on fs' p.
Proof.
  intros Hadd Hp q c Hq Hfile. eapply Hp; [exact Hq|].
  eapply only_adds_dirs_file; eauto.
Qed.

Lemma no_file_on_node (fs : FS) (p : path) (c : string) :
  no_file_on fs p -> Fs.lookup_node fs p <> Some (File c).
Proof.
  intros Hp. destruct p as [|a p]; [discriminate|]. cbn [Fs.lookup_node].
  now apply Hp.
Qed.

Lemma mkdir_parents_succeeds (rp : list string) (fs : FS) :
  no_file_on fs (rev rp) ->
  exists fs', Fs.mkdir_parents_rev true rp fs = (fs', Returned tt).
Proof.
  revert fs. induction rp as [|a rp IH]; intros fs Hno.
  - exists fs. reflexivity.
  - cbn [Fs.mkdir_parents_rev]. unfold Fs.is_dir.
    assert (Hpar : PyPath.parent (rev (a :: rp)) = rev rp)
      by (cbn [rev]; apply removelast_last).
    assert (Hnopar : no_file_on fs (rev rp))
      by (eapply no_file_on_prefix; [|exact Hno]; cbn [rev]; now apply prefix_app_r).
    destruct (Fs.os_mkdir _ fs) as [fs1 r1] eqn:Hos.
    apply os_mkdir_cases in Hos
      as [(-> & -> & _)|[-> [(-> & Hex)|[(-> & _ & c & Hc)|(-> & Hnone & _)]]]].
    + eauto.
    + destruct (Fs.lookup_node fs (rev (a :: rp))) as [[c|]|] eqn:Hl.
      * now apply no_file_on_node in Hl.
      * eauto.
      * contradiction.
    + rewrite Hpar in Hc. now apply no_file_on_node in Hc.
    + destruct (IH fs Hnopar) as [fs2 Hrec]. unfold bind. rewrite Hrec.
      pose proof (mkdir_parents_returned _ _ _ Hrec) as Hdir.
      pose proof (mkdir_parents_only_adds _ _ _ _ _ Hrec) as Hadd.
      unfold Fs.mkdir_flat, Fs.is_dir.
      destruct (Fs.os_mkdir _ fs2) as [fs3 r3] eqn:Hos.
      apply os_mkdir_cases in Hos
        as [(-> & -> & _)|[-> [(-> & Hex)|[(-> & _ & c & Hc)|(-> & _ & Hc)]]]].
      * eauto.
      * destruct (Fs.lookup_node fs2 (rev (a :: rp))) as [[c|]|] eqn:Hl.
        -- eapply no_file_on_node in Hl; [contradiction|].
           eapply no_file_on_only_adds; eauto.
        -- eauto.
        -- contradiction.
      * rewrite Hpar in Hc. congruence.
      * rewrite Hpar in Hc. congruence.
Qed.

Lemma only_adds_dirs_subseteq (fs fs' : FS) : only_adds_dirs fs fs' -> fs ⊆ fs'.
Proof.
  intros H. apply map_subseteq_spec. intros q x. now apply only_adds_dirs_keeps.
Qed.

Lemma subseteq_node (fs fs' : FS) (q : path) (x : node) :
  fs ⊆ fs' -> Fs.lookup_node fs q = Some x -> Fs.lookup_node fs' q = Some x.
Proof.
  intros Hsub. destruct q as [|a q]; [trivial|]. cbn [Fs.lookup_node].
  intros Hq. eapply lookup_weaken; eauto.
Qed.

Lemma mkdir_only_adds (p : path) (fs fs' : FS) (r : result unit) :
  Fs.mkdir true true p fs = (fs', r) -> only_adds_dirs fs fs'.
Proof. apply mkdir_parents_only_adds. Qed.

Lemma mkdir_returned (p : path) (fs fs' : FS) :
  Fs.mkdir true true p fs = (fs', Returned tt) -> Fs.lookup_node fs' p = Some Dir.
Proof.
  intros H. apply mkdir_parents_returned in H. now rewrite rev_involutive in H.
Qed.

Lemma mkdir_existing (p : path) (fs : FS) :
  Fs.lookup_node fs p = Some Dir -> Fs.mkdir true true p fs = (fs, Returned tt).
Proof.
  intros H. apply mkdir_parents_existing. now rewrite rev_involutive.
Qed.

Lemma mkdir_succeeds (p : path) (fs : FS) :
  no_file_on fs p -> exists fs', Fs.mkdir true true p fs = (fs', Returned tt).
Proof.
  intros H. apply mkdir_parents_succeeds. now rewrite rev_involutive.
Qed.

(** ** Writing a file once *)

Lemma write_if_absent_present (p : path) (body : Fs.Writer) (fs : FS) :
  Fs.lookup_node fs p <> None -> write_if_absent p body fs = (fs, Returned tt).
Proof.
  intros H. unfold write_if_absent, bind, Fs.exists_.
  destruct (Fs.lookup_node fs p); [reflexivity | contradiction].
Qed.

(** What the block does when the file is not there. *)
Lemma write_if_absent_cases (p : path) (body : Fs.Writer) (fs fs' : FS) (r : result unit) :
  Fs.lookup_node fs p = None ->
  write_if_absent p body fs = (fs', r) ->
  exists fs1, only_adds_dirs fs fs1 /\
    ((exists e, r = Raised e /\ fs' = fs1) \/
     (r = Returned tt /\ fs' = <[p := File (body "")]> fs1 /\
      Fs.lookup_node fs1 (PyPath.parent p) = Some Dir)).
Proof.
  intros Habs. unfold write_if_absent, bind, Fs.exists_. rewrite Habs. cbn [negb].
  destruct (Fs.mkdir true true (PyPath.parent p) fs) as [fs1 r1] eqn:Hmk.
  pose proof (mkdir_only_adds _ _ _ _ Hmk) as Hadd.
  destruct r1 as [[]|e].
  - apply mkdir_returned in Hmk. unfold Fs.with_open_w. rewrite Hmk.
    destruct (Fs.lookup_node fs1 p) as [[c|]|]; intros [= <- <-]; eauto 8.
  - intros [= <- <-]. eauto 8.
Qed.

Lemma write_if_absent_subseteq (p : path) (body : Fs.Writer) (fs fs' : FS) (r : result unit) :
  write_if_absent p body fs = (fs', r) -> fs ⊆ fs'.
Proof.
  destruct (Fs.lookup_node fs p) as [x|] eqn:Hp.
  - rewrite write_if_absent_present by congruence. now intros [= <- _].
  - intros H. destruct (write_if_absent_cases _ _ _ _ _ Hp H)
      as (fs1 & Hadd & [(e & _ & ->)|(_ & -> & _)]).
    + now apply only_adds_dirs_subseteq.
    + apply map_subseteq_spec. intros q x Hq.
      destruct (decide (p = q)) as [<-|Hne].
      * apply lookup_node_None in Hp. congruence.
      * rewrite lookup_insert_ne by exact Hne. eapply only_adds_dirs_keeps; eauto.
Qed.

Lemma write_if_absent_returned (p : path) (body : Fs.Writer) (fs fs' : FS) :
  write_if_absent p body fs = (fs', Returned tt) -> Fs.lookup_node fs' p <> None.
Proof.
  destruct (Fs.lookup_node fs p) as [x|] eqn:Hp.
  - rewrite write_if_absent_present by congruence. intros [= <-]. congruence.
  - intros H. destruct (write_if_absent_cases _ _ _ _ _ Hp H)
      as (fs1 & Hadd & [(e & [=] & _)|(_ & -> & _)]).
    destruct p as [|a p]; [discriminate|]. cbn [Fs.lookup_node].
    now rewrite lookup_insert_eq.
Qed.

Lemma write_if_absent_creates (p : path) (body : Fs.Writer) (fs fs' : FS) :
  fs !! p = None ->
  p <> [] ->
  write_if_absent p body fs = (fs', Returned tt) ->
  fs' !! p = Some (File (body "")).
Proof.
  intros Hp Hne H.
  assert (Hnode : Fs.lookup_node fs p = None) by (destruct p; [contradiction | exact Hp]).
  destruct (write_if_absent_cases _ _ _ _ _ Hnode H)
    as (fs1 & Hadd & [(e & [=] & _)|(_ & -> & _)]).
  apply lookup_insert_eq.
Qed.

(** ** What a step leaves alone *)

Lemma os_mkdir_elsewhere (p q : path) (fs fs' : FS) (r : result unit) :
  Fs.os_mkdir p fs = (fs', r) -> q <> p -> fs' !! q = fs !! q.
Proof.
  intros H Hne. apply os_mkdir_cases in H as [(_ & -> & _)|[-> _]]; [|reflexivity].
  now apply lookup_insert_ne.
Qed.

Lemma mkdir_flat_elsewhere (exist_ok : bool) (p q : path) (fs fs' : FS) (r : result unit) :
  Fs.mkdir_flat exist_ok p fs = (fs', r) -> q <> p -> fs' !! q = fs !! q.
Proof.
  unfold Fs.mkdir_flat, Fs.is_dir.
  destruct (Fs.os_mkdir p fs) as [fs1 r1] eqn:Hos. intros H Hne.
  apply (os_mkdir_elsewhere _ q) in Hos; [|exact Hne].
  destruct r1 as [[]|[]]; try destruct (_ || _); injection H as <- _; exact Hos.
Qed.

Lemma not_prefix_self (q p : path) : ~ q `prefix_of` p -> q <> p.
Proof. intros Hnp ->. now apply Hnp. Qed.

Lemma mkdir_parents_elsewhere (exist_ok : bool) (rp : list string) (q : path)
    (fs fs' : FS) (r : result unit) :
  Fs.mkdir_parents_rev exist_ok rp fs = (fs', r) ->
  ~ q `prefix_of` rev rp ->
  fs' !! q = fs !! q.
Proof.
  revert exist_ok fs fs' r. induction rp as [|a rp IH]; intros exist_ok fs fs' r H Hnp;
    cbn [Fs.mkdir_parents_rev] in H; unfold Fs.is_dir in H;
    destruct (Fs.os_mkdir _ fs) as [fs1 r1] eqn:Hos;
    apply (os_mkdir_elsewhere _ q) in Hos; try (now apply not_prefix_self).
  - destruct r1 as [[]|[]]; try destruct (_ || _); injection H as <- _; exact Hos.
  - destruct r1 as [[]|[]]; try destruct (_ || _); try (injection H as <- _; exact Hos).
    unfold bind in H. destruct (Fs.mkdir_parents_rev true rp fs1) as [fs2 r2] eqn:Hrec.
    apply IH in Hrec; [|intros Hq; apply Hnp; cbn [rev]; now apply prefix_app_r].
    destruct r2 as [[]|e].
    + apply (mkdir_flat_elsewhere _ _ q) in H; [|now apply not_prefix_self]. congruence.
    + injection H as <- _. congruence.
Qed.

Lemma mkdir_elsewhere (p q : path) (fs fs' : FS) (r : result unit) :
  Fs.mkdir true true p fs = (fs', r) -> ~ q `prefix_of` p -> fs' !! q = fs !! q.
Proof.
  intros H Hnp. eapply mkdir_parents_elsewhere; [exact H|]. now rewrite rev_involutive.
Qed.

Lemma write_if_absent_elsewhere (p q : path) (body : Fs.Writer) (fs fs' : FS)
    (r : result unit) :
  write_if_absent p body fs = (fs', r) ->
  q <> p -> ~ q `prefix_of` PyPath.parent p ->
  fs' !! q = fs !! q.
Proof.
  intros H Hne Hnp. unfold write_if_absent, bind, Fs.exists_ in H.
  destruct (Fs.lookup_node fs p); cbn [negb] in H; [now injection H as <- _|].
  destruct (Fs.mkdir true true (PyPath.parent p) fs) as [fs1 r1] eqn:Hmk.
  apply (mkdir_elsewhere _ q) in Hmk; [|exact Hnp].
  destruct r1 as [[]|e]; [|injection H as <- _; exact Hmk].
  unfold Fs.with_open_w in H.
  destruct (Fs.lookup_node fs1 p) as [[c|]|];
    destruct (Fs.lookup_node fs1 (PyPath.parent p)) as [[c'|]|];
    injection H as <- _; rewrite ?lookup_insert_ne by congruence; exact Hmk.
Qed.

(** ** setup *)

Lemma vars_dir_eq (context : Context) : pkgmngr context // "etc/dnf/vars" = vars_dir context.
Proof. reflexivity. Qed.

Lemma repos_dir_eq (context : Context) :
  pkgmngr context // "etc/yum.repos.d" = repos_dir context.
Proof. reflexivity. Qed.

Lemma dnf_conf_eq (context : Context) :
  pkgmngr context // "etc/dnf/dnf.conf" = dnf_conf context.
Proof. reflexivity. Qed.

Lemma mkosi_repo_eq (context : Context) :
  pkgmngr context // "etc/yum.repos.d/mkosi.repo" = mkosi_repo context.
Proof. reflexivity. Qed.

Lemma setup_unfold (context : Context) (repos : list RpmRepository) (filelists : bool) :
  setup context repos filelists =
  (Fs.mkdir true true (vars_dir context) ;;
   Fs.mkdir true true (repos_dir context) ;;
   write_if_absent (dnf_conf context) (conf_body context filelists) ;;
   write_if_absent (mkosi_repo context) (Fs.for_ repos write_repo)).
Proof. reflexivity. Qed.

Lemma parent_dnf_conf (context : Context) :
  PyPath.parent (dnf_conf context) = pkgmngr context ++ ["etc"; "dnf"].
Proof. apply (parent_div_file _ "" "dnf.conf" ["etc"; "dnf"]). Qed.

Lemma parent_mkosi_repo (context : Context) :
  PyPath.parent (mkosi_repo context) = repos_dir context.
Proof. apply (parent_div_file _ "" "mkosi.repo" ["etc"; "yum.repos.d"]). Qed.

Lemma only_adds_bind {A B} (m : IO A) (k : A -> IO B) :
  only_adds m -> (forall a, only_adds (k a)) -> only_adds (bind m k).
Proof.
  intros Hm Hk fs fs' r. unfold bind.
  destruct (m fs) as [fs1 [a|e]] eqn:H1; apply Hm in H1.
  - intros H2. apply Hk in H2. now transitivity fs1.
  - now intros [= <- _].
Qed.

Lemma only_adds_mkdir (p : path) : only_adds (Fs.mkdir true true p).
Proof.
  intros fs fs' r H. eapply only_adds_dirs_subseteq, mkdir_only_adds, H.
Qed.

Lemma only_adds_write_if_absent (p : path) (body : Fs.Writer) :
  only_adds (write_if_absent p body).
Proof. intros fs fs' r. apply write_if_absent_subseteq. Qed.

(** [setup] never changes an entry that exists. *)
Lemma only_adds_setup (context : Context) (repos : list RpmRepository) (filelists : bool) :
  only_adds (setup context repos filelists).
Proof.
  rewrite setup_unfold.
  repeat (apply only_adds_bind; [|intros _]);
    auto using only_adds_mkdir, only_adds_write_if_absent.
Qed.

Lemma setup_keeps (context : Context) (repos : list RpmRepository) (filelists : bool)
    (fs : FS) (q : path) (x : node) :
  fs !! q = Some x ->
  state_after (setup context repos filelists) fs !! q = Some x.
Proof.
  intros Hq. unfold state_after.
  destruct (setup context repos filelists fs) as [fs' r] eqn:H.
  apply only_adds_setup in H. eapply lookup_weaken; eauto.
Qed.

(** After a call that returned, the two directories and the two files are
    there. *)
Lemma setup_returned (context : Context) (repos : list RpmRepository) (filelists : bool)
    (fs fs' : FS) :
  setup context repos filelists fs = (fs', Returned tt) ->
  Fs.lookup_node fs' (vars_dir context) = Some Dir /\
  Fs.lookup_node fs' (repos_dir context) = Some Dir /\
  Fs.lookup_node fs' (dnf_conf context) <> None /\
  Fs.lookup_node fs' (mkosi_repo context) <> None.
Proof.
  rewrite setup_unfold. unfold bind.
  destruct (Fs.mkdir true true (vars_dir context) fs) as [fs1 [[]|e1]] eqn:H1; [|discriminate].
  destruct (Fs.mkdir true true (repos_dir context) fs1) as [fs2 [[]|e2]] eqn:H2; [|discriminate].
  destruct (write_if_absent (dnf_conf context) _ fs2) as [fs3 [[]|e3]] eqn:H3; [|discriminate].
  intros H4.
  pose proof (only_adds_mkdir _ _ _ _ H2) as S2.
  pose proof (only_adds_write_if_absent _ _ _ _ _ H3) as S3.
  pose proof (only_adds_write_if_absent _ _ _ _ _ H4) as S4.
  apply mkdir_returned in H1, H2.
  apply write_if_absent_returned in H3, H4.
  repeat split.
  - eauto using subseteq_node.
  - eauto using subseteq_node.
  - destruct (Fs.lookup_node fs3 (dnf_conf context)) as [x|] eqn:Hx; [|contradiction].
    now rewrite (subseteq_node _ _ _ _ S4 Hx).
  - exact H4.
Qed.

(** On a file system where the directories and the files are there, [setup]
    does nothing. *)
Lemma setup_noop (context : Context) (repos : list RpmRepository) (filelists : bool)
    (fs : FS) :
  Fs.lookup_node fs (vars_dir context) = Some Dir ->
  Fs.lookup_node fs (repos_dir context) = Some Dir ->
  Fs.lookup_node fs (dnf_conf context) <> None ->
  Fs.lookup_node fs (mkosi_repo context) <> None ->
  setup context repos filelists fs = (fs, Returned tt).
Proof.
  intros Hv Hr Hc Hm. rewrite setup_unfold. unfold bind.
  rewrite (mkdir_existing _ _ Hv), (mkdir_existing _ _ Hr).
  rewrite (write_if_absent_present _ _ _ Hc).
  now apply write_if_absent_present.
Qed.

Lemma setup_again (context context' : Context) (repos repos' : list RpmRepository)
    (filelists filelists' : bool) (fs fs' : FS) :
  pkgmngr context' = pkgmngr context ->
  setup context repos filelists fs = (fs', Returned tt) ->
  setup context' repos' filelists' fs' = (fs', Returned tt).
Proof.
  intros Hpk H. apply setup_returned in H as (Hv & Hr & Hc & Hm).
  apply setup_noop; unfold vars_dir, repos_dir, dnf_conf, mkosi_repo in *;
    now rewrite Hpk.
Qed.

Lemma write_if_absent_succeeds (p : path) (body : Fs.Writer) (fs : FS) :
  p <> [] ->
  no_file_on fs (PyPath.parent p) ->
  exists fs', write_if_absent p body fs = (fs', Returned tt).
Proof.
  intros Hne Hno.
  destruct (Fs.lookup_node fs p) as [x|] eqn:Hp.
  - exists fs. apply write_if_absent_present. congruence.
  - unfold write_if_absent, bind, Fs.exists_. rewrite Hp. cbn [negb].
    destruct (mkdir_succeeds _ _ Hno) as [fs1 Hmk]. rewrite Hmk.
    pose proof (mkdir_returned _ _ _ Hmk) as Hdir.
    assert (Hnp : ~ p `prefix_of` PyPath.parent p).
    { unfold PyPath.parent. rewrite (app_removelast_last "" Hne) at 1.
      apply prefix_snoc_not. }
    apply (mkdir_elsewhere _ p) in Hmk; [|exact Hnp].
    unfold Fs.with_open_w. rewrite Hdir.
    assert (Fs.lookup_node fs1 p = None) as ->.
    { destruct p as [|a p]; [contradiction|]. cbn [Fs.lookup_node] in *. congruence. }
    eauto.
Qed.

Lemma write_if_absent_no_file_on (p d : path) (body : Fs.Writer) (fs fs' : FS)
    (r : result unit) :
  write_if_absent p body fs = (fs', r) ->
  ~ p `prefix_of` d ->
  no_file_on fs d -> no_file_on fs' d.
Proof.
  intros H Hnp Hno.
  destruct (Fs.lookup_node fs p) as [x|] eqn:Hp.
  - rewrite write_if_absent_present in H by congruence. now injection H as <- _.
  - destruct (write_if_absent_cases _ _ _ _ _ Hp H)
      as (fs1 & Hadd & [(e & _ & ->)|(_ & -> & _)]).
    + eapply no_file_on_only_adds; eauto.
    + intros q c Hq. rewrite lookup_insert_ne by (intros ->; contradiction).
      eapply no_file_on_only_adds; eauto.
Qed.

(** [setup] returns when no regular file stands in the way of its two
    directories. *)
Lemma setup_succeeds (context : Context) (repos : list RpmRepository) (filelists : bool)
    (fs : FS) :
  no_file_on fs (vars_dir context) ->
  no_file_on fs (repos_dir context) ->
  exists fs', setup context repos filelists fs = (fs', Returned tt).
Proof.
  intros Hv Hr. rewrite setup_unfold. unfold bind.
  destruct (mkdir_succeeds _ _ Hv) as [fs1 H1]. rewrite H1.
  pose proof (mkdir_only_adds _ _ _ _ H1) as A1.
  assert (Hr1 : no_file_on fs1 (repos_dir context)) by eauto using no_file_on_only_adds.
  assert (Hv1 : no_file_on fs1 (vars_dir context)) by eauto using no_file_on_only_adds.
  destruct (mkdir_succeeds _ _ Hr1) as [fs2 H2]. rewrite H2.
  pose proof (mkdir_only_adds _ _ _ _ H2) as A2.
  assert (Hr2 : no_file_on fs2 (repos_dir context)) by eauto using no_file_on_only_adds.
  assert (Hv2 : no_file_on fs2 (vars_dir context)) by eauto using no_file_on_only_adds.
  destruct (write_if_absent_succeeds (dnf_conf context) (conf_body context filelists) fs2)
    as [fs3 H3].
  { unfold dnf_conf. other_path. }
  { rewrite parent_dnf_conf. eapply no_file_on_prefix; [|exact Hv2].
    unfold vars_dir. apply prefix_app. now exists ["vars"]. }
  rewrite H3.
  apply write_if_absent_succeeds.
  - unfold mkosi_repo. other_path.
  - rewrite parent_mkosi_repo. eapply write_if_absent_no_file_on; [exact H3| |exact Hr2].
    unfold dnf_conf, repos_dir. not_prefix.
Qed.

(** A call that returns on a file system without [mkosi.repo] leaves the
    file with one stanza for every descriptor, in the order of the
    descriptors. *)
Lemma setup_writes_repo_file (context : Context) (repos : list RpmRepository)
    (filelists : bool) (fs fs' : FS) :
  fs !! mkosi_repo context = None ->
  setup context repos filelists fs = (fs', Returned tt) ->
  fs' !! mkosi_repo context = Some (File (Fs.for_ repos write_repo "")).
Proof.
  intros Habs. rewrite setup_unfold. unfold bind.
  destruct (Fs.mkdir true true (vars_dir context) fs) as [fs1 [[]|e1]] eqn:H1; [|discriminate].
  destruct (Fs.mkdir true true (repos_dir context) fs1) as [fs2 [[]|e2]] eqn:H2; [|discriminate].
  destruct (write_if_absent (dnf_conf context) _ fs2) as [fs3 [[]|e3]] eqn:H3; [|discriminate].
  apply (mkdir_elsewhere _ (mkosi_repo context)) in H1;
    [|unfold mkosi_repo, vars_dir; not_prefix].
  apply (mkdir_elsewhere _ (mkosi_repo context)) in H2;
    [|unfold mkosi_repo, repos_dir; not_prefix].
  apply (write_if_absent_elsewhere _ (mkosi_repo context)) in H3;
    [|unfold mkosi_repo, dnf_conf; other_path
     |rewrite parent_dnf_conf; unfold mkosi_repo; not_prefix].
  apply write_if_absent_creates.
  - congruence.
  - unfold mkosi_repo. other_path.
Qed.

Lemma lookup_node_below (fs : FS) (p : path) (a : string) (l : list string) :
  Fs.lookup_node fs (p ++ a :: l) = fs !! (p ++ a :: l).
Proof. destruct p; reflexivity. Qed.

(** C1. When [setup] is called a second time on the same build root,
    whatever descriptors, configuration and [filelists] the second call is
    given, [etc/dnf/dnf.conf] and [etc/yum.repos.d/mkosi.repo] are after it
    what they were after the first call; and when the first call returned,
    the second one returns and leaves the whole file system as it was. *)
Theorem setup_twice_keeps_files (context context' : Context)
    (repos repos' : list RpmRepository) (filelists filelists' : bool) (fs : FS) :
  pkgmngr context' = pkgmngr context ->
  let fs1 := state_after (setup context repos filelists) fs in
  let fs2 := state_after (setup context' repos' filelists') fs1 in
  (forall x, fs1 !! (pkgmngr context // "etc/dnf/dnf.conf") = Some x ->
             fs2 !! (pkgmngr context' // "etc/dnf/dnf.conf") = Some x) /\
  (forall x, fs1 !! (pkgmngr context // "etc/yum.repos.d/mkosi.repo") = Some x ->
             fs2 !! (pkgmngr context' // "etc/yum.repos.d/mkosi.repo") = Some x) /\
  (outcome (setup context repos filelists) fs = Returned tt ->
   fs1 !! (pkgmngr context // "etc/dnf/dnf.conf") <> None /\
   fs1 !! (pkgmngr context // "etc/yum.repos.d/mkosi.repo") <> None /\
   setup context' repos' filelists' fs1 = (fs1, Returned tt)).
Proof.
  intros Hpk fs1 fs2. rewrite Hpk. split; [|split].
  - intros x. apply setup_keeps.
  - intros x. apply setup_keeps.
  - subst fs1 fs2. unfold outcome, state_after.
    destruct (setup context repos filelists fs) as [fs1 r] eqn:H. cbn [fst snd].
    intros ->. pose proof (setup_returned _ _ _ _ _ H) as (_ & _ & Hc & Hm).
    unfold dnf_conf, mkosi_repo in Hc, Hm. rewrite lookup_node_below in Hc, Hm.
    split; [exact Hc|]. split; [exact Hm|].
    eapply setup_again; eauto.
Qed.

(** C4. For the single descriptor [base] of the minimal scenario, on a file
    system where nothing stands in the way of the two directories and
    [mkosi.repo] is not there yet, [setup] returns and the file holds exactly
    the six lines of the stanza and the blank line that closes it. *)
Theorem setup_minimal_repository (context : Context) (filelists : bool) (fs : FS) :
  no_file_on fs (pkgmngr context // "etc/dnf/vars") ->
  no_file_on fs (pkgmngr context // "etc/yum.repos.d") ->
  fs !! (pkgmngr context // "etc/yum.repos.d/mkosi.repo") = None ->
  exists fs',
    setup context [base_repo] filelists fs = (fs', Returned tt) /\
    fs' !! (pkgmngr context // "etc/yum.repos.d/mkosi.repo") =
      Some (File ("[base]" +:+ PyStr.nl +:+
                  "name=base" +:+ PyStr.nl +:+
                  "baseurl=file:///repo" +:+ PyStr.nl +:+
                  "gpgcheck=1" +:+ PyStr.nl +:+
                  "enabled=1" +:+ PyStr.nl +:+
                  "gpgkey=file:///key" +:+ PyStr.nl +:+
                  PyStr.nl)).
Proof.
  intros Hv Hr Habs.
  destruct (setup_succeeds context [base_repo] filelists fs Hv Hr) as [fs' H].
  exists fs'. split; [exact H|].
  rewrite mkosi_repo_eq in *.
  rewrite (setup_writes_repo_file _ _ _ _ _ Habs H).
  reflexivity.
Qed.

(** C10. With no descriptor at all, on a file system where nothing stands
    in the way of the two directories and [mkosi.repo] is not there yet,
    [setup] returns and has created [mkosi.repo] as an empty file; whatever
    calls of [setup] follow on the same build root, with whatever
    descriptors, they all return and leave the file system, and so the empty
    file, as it is. *)
Theorem setup_empty_repositories (context : Context) (filelists : bool) (fs : FS) :
  no_file_on fs (pkgmngr context // "etc/dnf/vars") ->
  no_file_on fs (pkgmngr context // "etc/yum.repos.d") ->
  fs !! (pkgmngr context // "etc/yum.repos.d/mkosi.repo") = None ->
  exists fs1,
    setup context [] filelists fs = (fs1, Returned tt) /\
    fs1 !! (pkgmngr context // "etc/yum.repos.d/mkosi.repo") = Some (File "") /\
    forall calls : list (Context * list RpmRepository * bool),
      Forall (fun call => pkgmngr (fst (fst call)) = pkgmngr context) calls ->
      for_each calls (fun call => setup (fst (fst call)) (snd (fst call)) (snd call)) fs1 =
        (fs1, Returned tt).
Proof.
  intros Hv Hr Habs.
  destruct (setup_succeeds context [] filelists fs Hv Hr) as [fs1 H].
  exists fs1. split; [exact H|]. split.
  - rewrite mkosi_repo_eq in *. now rewrite (setup_writes_repo_file _ _ _ _ _ Habs H).
  - intros calls Hcalls. induction Hcalls as [|[[c r] f] calls Hc _ IH]; [reflexivity|].
    cbn [for_each fst snd] in *. unfold bind.
    rewrite (setup_again _ c _ r _ f _ _ Hc H). exact IH.
Qed.

(** ** The logs under the install root *)

Lemma children_spec (fs : FS) (d p : path) :
  In p (Fs.children fs d) <-> Fs.is_child d p = true /\ is_Some (fs !! p).
Proof.
  unfold Fs.children. rewrite List.filter_In, in_map_iff. split.
  - intros [([q x] & <- & Hin) Hc]. split; [exact Hc|].
    apply list_elem_of_In, elem_of_map_to_list in Hin. cbn [fst]. eauto.
  - intros [Hc [x Hx]]. split; [|exact Hc].
    exists (p, x). split; [reflexivity|]. now apply list_elem_of_In, elem_of_map_to_list.
Qed.

Lemma children_NoDup (fs : FS) (d : path) : NoDup (Fs.children fs d).
Proof.
  unfold Fs.children. apply NoDup_ListNoDup, List.NoDup_filter, NoDup_ListNoDup.
  apply (NoDup_fst_map_to_list fs).
Qed.

Lemma is_child_nonempty (d p : path) : Fs.is_child d p = true -> p <> [].
Proof.
  unfold Fs.is_child. intros H. apply bool_decide_eq_true in H. tauto.
Qed.

Lemma unlink_file (p : path) (c : string) (fs : FS) :
  p <> [] -> fs !! p = Some (File c) -> Fs.unlink p fs = (delete p fs, Returned tt).
Proof.
  intros Hne Hp. unfold Fs.unlink. destruct p as [|a p]; [contradiction|].
  cbn [Fs.lookup_node]. now rewrite Hp.
Qed.

(** The loop over entries that are all different, where every entry with the
    name of a log is a regular file: it returns, these entries are gone and
    nothing else has changed. *)
Lemma unlink_logs_spec (entries : list path) (fs : FS) :
  NoDup entries ->
  (forall p, In p entries -> p <> []) ->
  (forall p, In p entries -> is_log p = true -> exists c, fs !! p = Some (File c)) ->
  exists fs',
    unlink_logs entries fs = (fs', Returned tt) /\
    (forall q, In q entries -> is_log q = true -> fs' !! q = None) /\
    (forall q, ~ (In q entries /\ is_log q = true) -> fs' !! q = fs !! q).
Proof.
  intros Hnd. revert fs. induction Hnd as [|p entries Hnotin Hnd IH]; intros fs Hne Hfile.
  - exists fs. split; [reflexivity|]. split; [intros q []|reflexivity].
  - rewrite list_elem_of_In in Hnotin.
    unfold unlink_logs. cbn [for_each]. unfold bind.
    destruct (is_log p) eqn:Hlog.
    + destruct (Hfile p (or_introl eq_refl) Hlog) as [c Hc].
      rewrite (unlink_file p c fs (Hne p (or_introl eq_refl)) Hc).
      destruct (IH (delete p fs)) as (fs' & Hrun & Hgone & Hkept).
      { intros q Hq. apply Hne. now right. }
      { intros q Hq Hlq. destruct (Hfile q (or_intror Hq) Hlq) as [c' Hc'].
        exists c'. rewrite lookup_delete_ne; [exact Hc'|]. intros ->. contradiction. }
      exists fs'. split; [exact Hrun|]. split.
      * intros q [<-|Hq] Hlq.
        -- rewrite Hkept by tauto. apply lookup_delete_eq.
        -- now apply Hgone.
      * intros q Hq. rewrite Hkept by (intros [? ?]; apply Hq; split; [now right|assumption]).
        apply lookup_delete_ne. intros ->. apply Hq. split; [now left|assumption].
    + destruct (IH fs) as (fs' & Hrun & Hgone & Hkept).
      { intros q Hq. apply Hne. now right. }
      { intros q Hq. apply Hfile. now right. }
      exists fs'. split; [exact Hrun|]. split.
      * intros q [<-|Hq] Hlq; [congruence|]. now apply Hgone.
      * intros q Hq. apply Hkept. intros [Hin Hlq]. apply Hq. split; [now right|assumption].
Qed.

Lemma remove_logs_unfold (context : Context) :
  remove_logs context =
  (present <- Fs.exists_ (root context // "var/log") ;;
   if present then
     entries <- Fs.iterdir (root context // "var/log") ;; unlink_logs entries
   else ret tt).
Proof. reflexivity. Qed.

(** Without a log directory the [finally:] block does nothing. *)
Lemma remove_logs_absent (context : Context) (fs : FS) :
  Fs.lookup_node fs (root context // "var/log") = None ->
  remove_logs context fs = (fs, Returned tt).
Proof.
  intros H. rewrite remove_logs_unfold. unfold bind, Fs.exists_. now rewrite H.
Qed.

(** With a log directory where no entry with the name of a log is a
    directory, the [finally:] block returns, these entries are gone and
    nothing else has changed. *)
Lemma remove_logs_spec (context : Context) (fs : FS) :
  let log := root context // "var/log" in
  Fs.lookup_node fs log = Some Dir ->
  (forall q, Fs.is_child log q = true -> is_log q = true -> fs !! q <> Some Dir) ->
  exists fs',
    remove_logs context fs = (fs', Returned tt) /\
    (forall q, Fs.is_child log q = true -> is_log q = true -> fs' !! q = None) /\
    (forall q, ~ (Fs.is_child log q = true /\ is_log q = true) -> fs' !! q = fs !! q).
Proof.
  intros log Hdir Hfiles. rewrite remove_logs_unfold. fold log.
  unfold bind, Fs.exists_, Fs.iterdir. rewrite Hdir. cbn beta iota. rewrite Hdir.
  destruct (unlink_logs_spec (Fs.children fs log) fs) as (fs' & Hrun & Hgone & Hkept).
  - apply children_NoDup.
  - intros p Hp. apply children_spec in Hp as [Hc _]. eapply is_child_nonempty, Hc.
  - intros p Hp Hlog. apply children_spec in Hp as [Hc [[c|] Hx]]; [eauto|].
    now apply Hfiles in Hx.
  - exists fs'. split; [exact Hrun|]. split.
    + intros q Hc Hlog. destruct (fs !! q) as [x|] eqn:Hq.
      * apply Hgone; [|exact Hlog]. apply children_spec. eauto.
      * rewrite Hkept; [exact Hq|]. intros [Hin _].
        apply children_spec in Hin as [_ [x Hx]]. congruence.
    + intros q Hq. apply Hkept. intros [Hin Hlog]. apply Hq.
      apply children_spec in Hin as [Hc _]. auto.
Qed.

(** C6, as the code has it. Whatever the [try:] block leaves and however it
    ends (the execution returned, exited with another status than 0, or
    raised): when [var/log] under the install root is a directory and none of
    its entries with a name that starts with [dnf], [hawkey] or [yum] is
    itself a directory, [invoke] ends as the block did, every such entry is
    gone and nothing else has changed; and when [var/log] is not there,
    [invoke] ends as the block did and the file system is as the block left
    it. *)
Theorem invoke_removes_logs (context : Context) (operation : string)
    (arguments : list string) (apivfs : bool) (stdout : _FILE)
    (fs fs1 : FS) (r : result CompletedProcess) :
  invoke_try context operation arguments apivfs stdout fs = (fs1, r) ->
  let log := root context // "var/log" in
  (Fs.lookup_node fs1 log = Some Dir ->
   (forall q, Fs.is_child log q = true -> is_log q = true -> fs1 !! q <> Some Dir) ->
   exists fs2,
     invoke context operation arguments apivfs stdout fs = (fs2, r) /\
     (forall q, Fs.is_child log q = true -> is_log q = true -> fs2 !! q = None) /\
     (forall q, ~ (Fs.is_child log q = true /\ is_log q = true) -> fs2 !! q = fs1 !! q)) /\
  (Fs.lookup_node fs1 log = None ->
   invoke context operation arguments apivfs stdout fs = (fs1, r)).
Proof.
  intros Htry log. unfold invoke, try_finally. rewrite Htry. split.
  - intros Hdir Hfiles.
    destruct (remove_logs_spec context fs1 Hdir Hfiles) as (fs2 & Hrun & Hgone & Hkept).
    exists fs2. rewrite Hrun. auto.
  - intros Habs. now rewrite (remove_logs_absent context fs1 Habs).
Qed.

(** ** createrepo *)

Lemma write_text_overwrites (p : path) (s : string) (fs : FS) :
  Fs.lookup_node fs (PyPath.parent p) = Some Dir ->
  Fs.lookup_node fs p <> Some Dir ->
  Fs.write_text p s fs = (<[p := File s]> fs, Returned tt).
Proof.
  intros Hpar Hp. unfold Fs.write_text, Fs.with_open_w. rewrite Hpar.
  destruct (Fs.lookup_node fs p) as [[c|]|]; try reflexivity. contradiction.
Qed.

(** C7. When the run of [createrepo_c] has returned, on a file system where
    [etc/yum.repos.d] is a directory and [mkosi-local.repo] is not one:
    whatever the file held before, or if it was not there, it now holds the
    fixed stanza, and what [createrepo] does from there is [sync] with the
    options [--disablerepo=*] and [--enablerepo=mkosi], that is [makecache]
    with [--refresh] and these options. *)
Theorem createrepo_overwrites (context : Context) (fs fs1 : FS) (cp : CompletedProcess) :
  let local := pkgmngr context // "etc/yum.repos.d/mkosi-local.repo" in
  run ["createrepo_c"; PyPath.fspath (packages context)]
    (sandbox context None
       ["--bind"; PyPath.fspath (packages context); PyPath.fspath (packages context)])
    None None fs = (fs1, Returned cp) ->
  Fs.lookup_node fs1 (pkgmngr context // "etc/yum.repos.d") = Some Dir ->
  fs1 !! local <> Some Dir ->
  let written :=
    <[local := File ("[mkosi]" +:+ PyStr.nl +:+
                     "name=mkosi" +:+ PyStr.nl +:+
                     "baseurl=file:///work/packages" +:+ PyStr.nl +:+
                     "gpgcheck=0" +:+ PyStr.nl +:+
                     "metadata_expire=never" +:+ PyStr.nl +:+
                     "priority=50" +:+ PyStr.nl)]> fs1 in
  createrepo context fs =
    sync context ["--disablerepo=*"; "--enablerepo=mkosi"] written /\
  sync context ["--disablerepo=*"; "--enablerepo=mkosi"] written =
    (invoke context "makecache"
       ("--refresh" ::
        (if String.eqb (executable (config context)) "dnf5"
         then ["--setopt=cacheonly=none"] else []) ++
        ["--disablerepo=*"; "--enablerepo=mkosi"])
       false None ;; ret tt) written.
Proof.
  intros local Hrun Hdir Hlocal written. split; [|reflexivity].
  unfold createrepo. unfold bind at 1. rewrite Hrun.
  unfold bind at 1. fold local.
  rewrite (write_text_overwrites local _ fs1).
  - reflexivity.
  - subst local. change (pkgmngr context // "etc/yum.repos.d/mkosi-local.repo")
      with (pkgmngr context ++ ["etc"; "yum.repos.d"] ++ ["mkosi-local.repo"]).
    rewrite (parent_div_file _ "" "mkosi-local.repo" ["etc"; "yum.repos.d"]).
    exact Hdir.
  - subst local. change (pkgmngr context // "etc/yum.repos.d/mkosi-local.repo")
      with (pkgmngr context ++ "etc" :: ["yum.repos.d"; "mkosi-local.repo"]) in *.
    now rewrite lookup_node_below.
Qed.

(** ** The executable *)

(** C2, as the code has it. The result holds no slash: it is a name. It is
    the name of the override [MKOSI_DNF] when that is set to a string that is
    not empty; when it is not set or set to the empty string, with
    [find_binary] giving for [dnf5] and [dnf] a path whose name is the name it
    looked for, it is [dnf5] when that is found under the tools root, else
    [dnf] when that is found there, else [yum] with nothing looked up. *)
Theorem executable_resolution (config : Config) :
  (forall name p, name = "dnf5" \/ name = "dnf" ->
     find_binary name (tools config) = Some p -> PyPath.name p = name) ->
  let override := environment config !! "MKOSI_DNF" in
  let found name := find_binary name (tools config) in
  PyStr.contains "/"%char (executable config) = false /\
  (forall s, override = Some s -> s <> "" -> executable config = PyPath.name s) /\
  (override = None \/ override = Some "" ->
   (found "dnf5" <> None -> executable config = "dnf5") /\
   (found "dnf5" = None -> found "dnf" <> None -> executable config = "dnf") /\
   (found "dnf5" = None -> found "dnf" = None -> executable config = "yum")).
Proof.
  intros Hname override found. split; [apply name_no_slash|]. split.
  - intros s Hs Hne. unfold executable. fold override. rewrite Hs.
    destruct s; [contradiction | reflexivity].
  - intros Hunset.
    assert (Hrest : executable config =
                    PyPath.name (or_path (found "dnf5") (or_path (found "dnf") "yum"))).
    { unfold executable. fold override. now destruct Hunset as [-> | ->]. }
    rewrite Hrest. subst found. cbn beta. repeat split.
    + destruct (find_binary "dnf5" (tools config)) as [p|] eqn:H5; [|contradiction].
      intros _. cbn [or_path]. apply Hname; auto.
    + intros -> Hd. cbn [or_path].
      destruct (find_binary "dnf" (tools config)) as [p|] eqn:H4; [|contradiction].
      cbn [or_path]. apply Hname; auto.
    + intros -> ->. reflexivity.
Qed.

(** The two directory names of [subdir]. *)
Lemma subdir_two_names (config : Config) :
  (executable config = "dnf5" -> subdir config = "libdnf5") /\
  (executable config <> "dnf5" -> subdir config = "dnf") /\
  "libdnf5" <> "dnf".
Proof.
  unfold subdir. destruct (String.eqb_spec (executable config) "dnf5"); repeat split;
    try reflexivity; try contradiction; discriminate.
Qed.

(** * More properties of the code *)

(** ** The parts of the command line *)

Lemma cmd_parts (context : Context) :
  cmd context =
  "env" :: "HOME=/" :: executable (config context) ::
  cmd_fixed context ++ cmd_debug ++ cmd_gpg context ++ cmd_repos context ++
  cmd_cache context ++ cmd_arch context ++ cmd_docs context ++ cmd_trailer context.
Proof.
  unfold cmd, cmd_fixed, cmd_debug, cmd_gpg, cmd_repos, cmd_cache, cmd_arch, cmd_docs,
    cmd_trailer. cbv zeta. rewrite <- !app_assoc. cbn [app].
  destruct (repositories (config context)); reflexivity.
Qed.

Lemma filter_none {A} (f : A -> bool) (l : list A) :
  List.Forall (fun x => f x = false) l -> List.filter f l = [].
Proof.
  induction 1 as [|x l Hx _ IH]; [reflexivity|]. cbn [List.filter]. now rewrite Hx.
Qed.

Lemma filter_all {A} (f : A -> bool) (l : list A) :
  List.Forall (fun x => f x = true) l -> List.filter f l = l.
Proof.
  induction 1 as [|x l Hx _ IH]; [reflexivity|]. cbn [List.filter]. now rewrite Hx, IH.
Qed.

Lemma prefix_append (p s : string) : String.prefix p (p +:+ s) = true.
Proof.
  induction p as [|a p IH]; [now destruct s|].
  rewrite append_cons. cbn [String.prefix].
  destruct (ascii_dec a a); [exact IH | contradiction].
Qed.

(** X1. Every token that [cmd] puts after the executable is an option: it
    starts with two dashes. *)
Theorem cmd_options_are_flags (context : Context) :
  exists options,
    cmd context = "env" :: "HOME=/" :: executable (config context) :: options /\
    List.Forall (fun token => PyStr.startswith token "--" = true) options.
Proof.
  eexists. split; [apply cmd_parts|].
  repeat (apply List.Forall_app; split); each_token.
Qed.

(** X2. The options hold a [--forcearch=] token exactly when the
    architecture is not the native one, and then just one, with the name
    that the distribution gives to the architecture. *)
Theorem cmd_forcearch (context : Context) :
  exists options,
    cmd context = "env" :: "HOME=/" :: executable (config context) :: options /\
    List.filter (fun token => PyStr.startswith token "--forcearch=") options =
      if architecture_is_native (config context) then []
      else ["--forcearch=" +:+ distribution_architecture (config context)].
Proof.
  eexists. split; [apply cmd_parts|].
  rewrite !List.filter_app.
  rewrite (filter_none _ (cmd_fixed context)) by each_token.
  rewrite (filter_none _ cmd_debug) by each_token.
  rewrite (filter_none _ (cmd_gpg context)) by each_token.
  rewrite (filter_none _ (cmd_repos context)) by each_token.
  rewrite (filter_none _ (cmd_cache context)) by each_token.
  rewrite (filter_none _ (cmd_docs context)) by each_token.
  rewrite (filter_none _ (cmd_trailer context)) by each_token.
  unfold cmd_arch. destruct (architecture_is_native (config context)); cbn [negb List.filter app].
  - reflexivity.
  - unfold PyStr.startswith. now rewrite prefix_append.
Qed.


(** X4. The spelling of the options follows one test, whether the name of
    the executable ends with [dnf5]: when it does, the plugin options and
    the trailer are those of the next generation and none of the legacy
    spellings is there; when it does not, it is the other way round. *)
Theorem cmd_variant_spelling (context : Context) :
  exists options,
    cmd context = "env" :: "HOME=/" :: executable (config context) :: options /\
    (PyStr.endswith (executable (config context)) "dnf5" = true ->
     List.Forall (fun token => In token options)
       ["--disable-plugin=*"; "--enable-plugin=builddep"; "--use-host-config"] /\
     List.Forall (fun token => ~ In token options)
       ["--disableplugin=*"; "--enableplugin=builddep"; "--nodocs";
        "--config=/etc/dnf/dnf.conf"; "--setopt=reposdir=/etc/yum.repos.d";
        "--setopt=varsdir=/etc/dnf/vars"]) /\
    (PyStr.endswith (executable (config context)) "dnf5" = false ->
     List.Forall (fun token => In token options)
       ["--disableplugin=*"; "--enableplugin=builddep"; "--config=/etc/dnf/dnf.conf";
        "--setopt=reposdir=/etc/yum.repos.d"; "--setopt=varsdir=/etc/dnf/vars"] /\
     List.Forall (fun token => ~ In token options)
       ["--disable-plugin=*"; "--enable-plugin=builddep"; "--no-docs";
        "--use-host-config"]).
Proof.
  eexists. split; [apply cmd_parts|].
  split; intros Hend;
    (split; [|repeat apply List.Forall_cons; try apply List.Forall_nil;
              intros H; cmd_unfold_in H; rewrite Hend in H; absent_flag H]).
  - repeat apply List.Forall_cons; try apply List.Forall_nil;
      rewrite !in_app_iff; unfold cmd_fixed, cmd_trailer; rewrite Hend; cbn [In]; found.
  - repeat apply List.Forall_cons; try apply List.Forall_nil;
      rewrite !in_app_iff; unfold cmd_fixed, cmd_trailer; rewrite Hend; cbn [In]; found.
Qed.

(** X5. The three options that the configuration switches are there exactly
    when it asks for them: the debug level when the debug flag is set,
    [--nogpgcheck] when the check of the repository keys is off, and the
    option that leaves out the documentation, in one of its two spellings,
    when documentation is not wanted. *)
Theorem cmd_switches (context : Context) :
  exists options,
    cmd context = "env" :: "HOME=/" :: executable (config context) :: options /\
    (In "--setopt=debuglevel=10" options <-> ARG_DEBUG = true) /\
    (In "--nogpgcheck" options <-> repository_key_check (config context) = false) /\
    (In "--no-docs" options \/ In "--nodocs" options <-> with_docs (config context) = false).
Proof.
  eexists. split; [apply cmd_parts|]. split; [|split]; split.
  - intros H. destruct (Bool.bool_dec ARG_DEBUG true) as [Hon|Hoff]; [exact Hon|].
    apply Bool.not_true_is_false in Hoff. exfalso.
    cmd_unfold_in H. rewrite Hoff in H. absent_flag H.
  - intros Hon. rewrite !in_app_iff. right. left. unfold cmd_debug. rewrite Hon. now left.
  - intros H. destruct (repository_key_check (config context)) eqn:Hcheck; [|reflexivity].
    exfalso. cmd_unfold_in H. rewrite Hcheck in H. cbn [negb] in H. absent_flag H.
  - intros Hoff. rewrite !in_app_iff. do 2 right. left. unfold cmd_gpg. rewrite Hoff.
    now left.
  - intros H. destruct (with_docs (config context)) eqn:Hdocs; [|reflexivity].
    exfalso. cmd_unfold_in H. rewrite Hdocs in H. cbn [negb] in H.
    destruct H as [H|H]; absent_flag H.
  - intros Hoff. rewrite !in_app_iff. unfold cmd_docs. rewrite Hoff. cbn [negb].
    destruct (PyStr.endswith (executable (config context)) "dnf5"); cbn [In]; found.
Qed.

(** ** The executable and the variant *)

(** X6. Without an override, or with an empty one, and with [find_binary]
    giving for [dnf5] and [dnf] a path whose name is the name it looked for,
    the executable is one of [dnf5], [dnf] and [yum]; the two tests that the
    code has for the next generation, the name ending with [dnf5] and the
    name being [dnf5], then agree, so that [subdir] gives [libdnf5] exactly
    when [cmd] spells the options for the next generation. *)
Theorem executable_autodetected (config : Config) :
  (forall name p, name = "dnf5" \/ name = "dnf" ->
     find_binary name (tools config) = Some p -> PyPath.name p = name) ->
  environment config !! "MKOSI_DNF" = None \/ environment config !! "MKOSI_DNF" = Some "" ->
  (executable config = "dnf5" \/ executable config = "dnf" \/ executable config = "yum") /\
  (PyStr.endswith (executable config) "dnf5" = true <-> executable config = "dnf5") /\
  (subdir config = "libdnf5" <-> PyStr.endswith (executable config) "dnf5" = true).
Proof.
  intros Hname Hunset.
  assert (Hthree : executable config = "dnf5" \/ executable config = "dnf" \/
                   executable config = "yum").
  { unfold executable. destruct Hunset as [-> | ->]; cbn [or_str PyStr.truthy];
      destruct (find_binary "dnf5" (tools config)) as [p5|] eqn:H5; cbn [or_path];
      try (left; apply Hname; auto; fail);
      destruct (find_binary "dnf" (tools config)) as [p4|] eqn:H4; cbn [or_path];
      try (right; left; apply Hname; auto; fail);
      right; right; reflexivity. }
  split; [exact Hthree|]. unfold subdir.
  destruct Hthree as [-> | [-> | ->]]; repeat split; intros; try reflexivity; discriminate.
Qed.

(** ** textwrap.dedent on the stanza of a descriptor *)

Lemma split_clean (s : string) :
  PyStr.contains PyStr.LF s = false -> PyStr.split PyStr.LF s = [s].
Proof.
  induction s as [|a s IH]; [reflexivity|].
  cbn [PyStr.contains PyStr.split]. intros H. apply orb_false_elim in H as [Ha Hs].
  now rewrite Ha, (IH Hs).
Qed.

Lemma contains_spaces (c : ascii) (n : nat) :
  c <> PyStr.SP -> PyStr.contains c (PyStr.spaces n) = false.
Proof.
  intros Hc. induction n as [|n IH]; [reflexivity|].
  cbn [PyStr.spaces PyStr.contains]. rewrite IH, orb_false_r.
  apply Ascii.eqb_neq. congruence.
Qed.

Lemma all_blank_spaces (n : nat) : Textwrap.all_blank (PyStr.spaces n) = true.
Proof. induction n as [|n IH]; [reflexivity|]. cbn. exact IH. Qed.

Lemma all_blank_append (a b : string) :
  Textwrap.all_blank (a +:+ b) = Textwrap.all_blank a && Textwrap.all_blank b.
Proof.
  induction a as [|x a IH]; [reflexivity|].
  rewrite append_cons. cbn [Textwrap.all_blank]. now rewrite IH, andb_assoc.
Qed.

Lemma leading_blanks_spaces (n : nat) (s : string) :
  Textwrap.leading_blanks (PyStr.spaces n +:+ s) = PyStr.spaces n +:+ Textwrap.leading_blanks s.
Proof.
  induction n as [|n IH]; [reflexivity|].
  cbn [PyStr.spaces]. rewrite !append_cons. cbn. now rewrite IH.
Qed.

Lemma substring_append_drop (m s : string) (k : nat) :
  String.substring (String.length m) k (m +:+ s) = String.substring 0 k s.
Proof. induction m as [|a m IH]; [reflexivity|]. rewrite append_cons. exact IH. Qed.

Lemma substring_all (s : string) : String.substring 0 (String.length s) s = s.
Proof. induction s as [|a s IH]; [reflexivity|]. cbn. now rewrite IH. Qed.

Lemma length_append (a b : string) :
  String.length (a +:+ b) = String.length a + String.length b.
Proof.
  induction a as [|x a IH]; [reflexivity|]. rewrite append_cons. cbn. now rewrite IH.
Qed.

Lemma strip_margin_append (m s : string) : Textwrap.strip_margin m (m +:+ s) = s.
Proof.
  unfold Textwrap.strip_margin, PyStr.startswith. rewrite prefix_append, length_append.
  replace (String.length m + String.length s - String.length m) with (String.length s) by lia.
  now rewrite substring_append_drop, substring_all.
Qed.

Lemma update_margin_keep (m s : string) :
  Textwrap.update_margin (Some m) (m +:+ s) = Some m.
Proof. unfold Textwrap.update_margin, PyStr.startswith. now rewrite prefix_append. Qed.

Lemma update_margin_same (m : string) : Textwrap.update_margin (Some m) m = Some m.
Proof. rewrite <- (append_empty_r m) at 2. apply update_margin_keep. Qed.

Lemma blank_out_content (l : string) :
  Textwrap.all_blank l = false -> Textwrap.blank_out l = l.
Proof. unfold Textwrap.blank_out. now intros ->. Qed.

Lemma indents_content (l : string) (ls : list string) :
  Textwrap.all_blank l = false ->
  Textwrap.indents (l :: ls) = Textwrap.leading_blanks l :: Textwrap.indents ls.
Proof.
  intros Hl. unfold Textwrap.indents. rewrite filter_cons_True; [reflexivity|].
  now rewrite Hl.
Qed.

Lemma indents_blank (l : string) (ls : list string) :
  Textwrap.all_blank l = true -> Textwrap.indents (l :: ls) = Textwrap.indents ls.
Proof.
  intros Hl. unfold Textwrap.indents. rewrite filter_cons_False; [reflexivity|].
  now rewrite Hl.
Qed.

(** The header of the stanza, when the identifier and the URL line hold no
    newline and the URL line is not blank: the five lines without their
    indentation. *)
Lemma dedent_repo_template (repo : RpmRepository) :
  PyStr.contains PyStr.LF (id repo) = false ->
  PyStr.contains PyStr.LF (url repo) = false ->
  Textwrap.all_blank (url repo) = false ->
  Textwrap.dedent (repo_template repo) =
    "[" +:+ id repo +:+ "]" +:+ PyStr.nl +:+
    "name=" +:+ id repo +:+ PyStr.nl +:+
    url repo +:+ PyStr.nl +:+
    "gpgcheck=1" +:+ PyStr.nl +:+
    "enabled=" +:+ PyStr.str_int_of_bool (enabled repo) +:+ PyStr.nl.
Proof.
  intros Hid Hurl Hblank.
  set (ind := PyStr.spaces 28).
  set (b := PyStr.str_int_of_bool (enabled repo)).
  set (l1 := "[" +:+ id repo +:+ "]").
  set (l2 := "name=" +:+ id repo).
  set (l5 := "enabled=" +:+ b).
  assert (Hb : PyStr.contains PyStr.LF b = false) by (subst b; now destruct (enabled repo)).
  assert (Hind : PyStr.contains PyStr.LF ind = false) by (apply contains_spaces; discriminate).
  assert (Htext : repo_template repo =
            (ind +:+ l1) +:+ PyStr.nl +:+ (ind +:+ l2) +:+ PyStr.nl +:+
            (ind +:+ url repo) +:+ PyStr.nl +:+ (ind +:+ "gpgcheck=1") +:+ PyStr.nl +:+
            (ind +:+ l5) +:+ PyStr.nl +:+ ind).
  { unfold repo_template. cbv zeta. subst ind b l1 l2 l5. rewrite !append_assoc. reflexivity. }
  assert (Hsplit : PyStr.split PyStr.LF (repo_template repo) =
            [ind +:+ l1; ind +:+ l2; ind +:+ url repo; ind +:+ "gpgcheck=1"; ind +:+ l5; ind]).
  { rewrite Htext.
    rewrite !split_first_line, (split_clean ind Hind); [reflexivity|..];
      subst l1 l2 l5; rewrite ?contains_append, ?Hind, ?Hid, ?Hurl, ?Hb; reflexivity. }
  assert (H1 : Textwrap.all_blank (ind +:+ l1) = false)
    by (rewrite all_blank_append; subst ind; rewrite all_blank_spaces; reflexivity).
  assert (H2 : Textwrap.all_blank (ind +:+ l2) = false)
    by (rewrite all_blank_append; subst ind; rewrite all_blank_spaces; reflexivity).
  assert (H3 : Textwrap.all_blank (ind +:+ url repo) = false)
    by (rewrite all_blank_append, Hblank; apply andb_false_r).
  assert (H4 : Textwrap.all_blank (ind +:+ "gpgcheck=1") = false)
    by (rewrite all_blank_append; subst ind; rewrite all_blank_spaces; reflexivity).
  assert (H5 : Textwrap.all_blank (ind +:+ l5) = false)
    by (rewrite all_blank_append; subst ind; rewrite all_blank_spaces; reflexivity).
  assert (H6 : Textwrap.all_blank ind = true) by apply all_blank_spaces.
  unfold Textwrap.dedent. rewrite Hsplit. cbn [map].
  rewrite !blank_out_content by assumption.
  unfold Textwrap.blank_out at 1. rewrite H6.
  rewrite !indents_content by assumption. rewrite indents_blank by reflexivity.
  assert (Hlb : forall s, Textwrap.leading_blanks (ind +:+ s) =
                          ind +:+ Textwrap.leading_blanks s)
    by (intros s; apply leading_blanks_spaces).
  rewrite !Hlb.
  change (Textwrap.indents []) with (@nil string).
  change (Textwrap.leading_blanks l1) with "".
  change (Textwrap.leading_blanks l2) with "".
  change (Textwrap.leading_blanks "gpgcheck=1") with "".
  change (Textwrap.leading_blanks l5) with "".
  rewrite !append_empty_r.
  cbn [fold_left]. change (Textwrap.update_margin None ind) with (Some ind).
  rewrite !update_margin_same, update_margin_keep, !update_margin_same.
  change (PyStr.truthy ind) with true. cbn iota.
  cbn [map]. rewrite !strip_margin_append.
  change (Textwrap.strip_margin ind "") with "".
  cbn [PyStr.join]. subst l1 l2 l5. rewrite !append_assoc. reflexivity.
Qed.

(** X7. The whole stanza of a descriptor whose identifier and URL line hold
    no newline and whose URL line is not blank: the five header lines
    without indentation, the ssl lines of the fields that are there, the
    priority line of a priority that is there and not zero, the lines of the
    gpg URLs, none when there is no URL, and the blank line. *)
Theorem stanza_of_clean_descriptor (repo : RpmRepository) :
  PyStr.contains PyStr.LF (id repo) = false ->
  PyStr.contains PyStr.LF (url repo) = false ->
  Textwrap.all_blank (url repo) = false ->
  write_repo repo "" =
    ("[" +:+ id repo +:+ "]" +:+ PyStr.nl +:+
     "name=" +:+ id repo +:+ PyStr.nl +:+
     url repo +:+ PyStr.nl +:+
     "gpgcheck=1" +:+ PyStr.nl +:+
     "enabled=" +:+ (if enabled repo then "1" else "0") +:+ PyStr.nl) +:+
    (match sslcacert repo with Some p => "sslcacert=" +:+ p +:+ PyStr.nl | None => "" end) +:+
    (match sslclientcert repo with
     | Some p => "sslclientcert=" +:+ p +:+ PyStr.nl | None => "" end) +:+
    (match sslclientkey repo with
     | Some p => "sslclientkey=" +:+ p +:+ PyStr.nl | None => "" end) +:+
    (match priority repo with
     | Some z => if Z.eqb z 0 then "" else "priority=" +:+ PyStr.str_int z +:+ PyStr.nl
     | None => ""
     end) +:+
    (match gpgurls repo with
     | [] => ""
     | u0 :: rest =>
         String.concat ""
           (("gpgkey=" +:+ u0 +:+ PyStr.nl) ::
            map (fun u => "       " +:+ u +:+ PyStr.nl) rest)
     end) +:+
    PyStr.nl.
Proof.
  intros Hid Hurl Hblank.
  rewrite (write_repo_emits repo ""), append_empty_l, stanza_head_fields.
  rewrite (dedent_repo_template repo Hid Hurl Hblank).
  unfold PyStr.str_int_of_bool. rewrite !append_assoc. reflexivity.
Qed.

(** ** More on setup *)

Lemma for_write_repo (repos : list RpmRepository) :
  Fs.for_ repos write_repo "" = String.concat "" (map (fun r => write_repo r "") repos).
Proof.
  rewrite (emits_for repos write_repo (fun r => write_repo r "")); [reflexivity|].
  intros r buf. rewrite (write_repo_emits r buf), (write_repo_emits r "").
  now rewrite append_empty_l.
Qed.


Lemma setup_writes_conf_file (context : Context) (repos : list RpmRepository)
    (filelists : bool) (fs fs' : FS) :
  fs !! dnf_conf context = None ->
  setup context repos filelists fs = (fs', Returned tt) ->
  fs' !! dnf_conf context = Some (File (conf_body context filelists "")).
Proof.
  intros Habs. rewrite setup_unfold. unfold bind.
  destruct (Fs.mkdir true true (vars_dir context) fs) as [fs1 [[]|e1]] eqn:H1; [|discriminate].
  destruct (Fs.mkdir true true (repos_dir context) fs1) as [fs2 [[]|e2]] eqn:H2; [|discriminate].
  destruct (write_if_absent (dnf_conf context) _ fs2) as [fs3 [[]|e3]] eqn:H3; [|discriminate].
  intros H4.
  apply (mkdir_elsewhere _ (dnf_conf context)) in H1;
    [|unfold dnf_conf, vars_dir; not_prefix].
  apply (mkdir_elsewhere _ (dnf_conf context)) in H2;
    [|unfold dnf_conf, repos_dir; not_prefix].
  apply (write_if_absent_elsewhere _ (dnf_conf context)) in H4;
    [|unfold mkosi_repo, dnf_conf; other_path
     |rewrite parent_mkosi_repo; unfold dnf_conf, repos_dir; not_prefix].
  rewrite H4. apply (write_if_absent_creates _ _ fs2).
  - congruence.
  - unfold dnf_conf. other_path.
  - exact H3.
Qed.


Lemma write_if_absent_raised (p : path) (body : Fs.Writer) (fs fs' : FS) (e : exn) :
  write_if_absent p body fs = (fs', Raised e) -> only_adds_dirs fs fs'.
Proof.
  destruct (Fs.lookup_node fs p) as [x|] eqn:Hp.
  - rewrite write_if_absent_present by congruence. discriminate.
  - intros H. destruct (write_if_absent_cases _ _ _ _ _ Hp H)
      as (fs1 & Hadd & [(e' & _ & ->)|([=] & _)]). exact Hadd.
Qed.

Lemma write_if_absent_in_directory (p : path) (body : Fs.Writer) (fs : FS) :
  Fs.lookup_node fs (PyPath.parent p) = Some Dir ->
  exists fs', write_if_absent p body fs = (fs', Returned tt).
Proof.
  intros Hdir. destruct (Fs.lookup_node fs p) as [x|] eqn:Hp.
  - exists fs. apply write_if_absent_present. congruence.
  - unfold write_if_absent, bind, Fs.exists_. rewrite Hp. cbn [negb].
    rewrite (mkdir_existing _ _ Hdir). unfold Fs.with_open_w. rewrite Hp, Hdir. eauto.
Qed.


(** X11. After a call of [setup] that returned, the two directories are
    directories and the two files exist. *)
Theorem setup_postcondition (context : Context) (repos : list RpmRepository)
    (filelists : bool) (fs fs' : FS) :
  setup context repos filelists fs = (fs', Returned tt) ->
  fs' !! (pkgmngr context // "etc/dnf/vars") = Some Dir /\
  fs' !! (pkgmngr context // "etc/yum.repos.d") = Some Dir /\
  is_Some (fs' !! (pkgmngr context // "etc/dnf/dnf.conf")) /\
  is_Some (fs' !! (pkgmngr context // "etc/yum.repos.d/mkosi.repo")).
Proof.
  intros H. apply setup_returned in H as (Hv & Hr & Hc & Hm).
  rewrite vars_dir_eq, repos_dir_eq, dnf_conf_eq, mkosi_repo_eq.
  unfold vars_dir, repos_dir, dnf_conf, mkosi_repo in *.
  rewrite lookup_node_below in Hv, Hr, Hc, Hm.
  repeat split; try assumption; now apply not_eq_None_Some.
Qed.

(** ** The file system stays a tree *)

Lemma parent_fixed (p : path) : PyPath.parent p = p -> p = [].
Proof.
  destruct p as [|a p] using rev_ind; [reflexivity|].
  unfold PyPath.parent. rewrite removelast_last. intros H.
  apply (f_equal (@length string)) in H. rewrite length_app in H. cbn in H. lia.
Qed.

Lemma lookup_node_insert_dir_keeps (fs : FS) (p r : path) :
  Fs.lookup_node fs r = Some Dir -> Fs.lookup_node (<[p := Dir]> fs) r = Some Dir.
Proof.
  destruct r as [|a r]; [trivial|]. cbn [Fs.lookup_node]. intros Hr.
  destruct (decide (p = a :: r)) as [->|Hne].
  - apply lookup_insert_eq.
  - now rewrite lookup_insert_ne.
Qed.

Lemma tree_root (fs : FS) (p : path) (x : node) : tree fs -> fs !! p = Some x -> p <> [].
Proof. intros [Hroot _] Hp ->. rewrite Hroot in Hp. discriminate. Qed.

Lemma tree_lookup_node (fs : FS) (p : path) (x : node) :
  tree fs -> fs !! p = Some x -> Fs.lookup_node fs p = Some x.
Proof.
  intros Ht Hp. pose proof (tree_root _ _ _ Ht Hp). destruct p; [contradiction|exact Hp].
Qed.

Lemma tree_insert_dir (fs : FS) (p : path) :
  tree fs -> p <> [] -> Fs.lookup_node fs (PyPath.parent p) = Some Dir ->
  tree (<[p := Dir]> fs).
Proof.
  intros [Hroot Ht] Hne Hpar. split.
  - now rewrite lookup_insert_ne.
  - intros q x Hq. apply lookup_node_insert_dir_keeps.
    destruct (decide (p = q)) as [<-|Hpq]; [exact Hpar|].
    rewrite lookup_insert_ne in Hq by exact Hpq. eapply Ht, Hq.
Qed.

Lemma tree_insert_file (fs : FS) (p : path) (c : string) :
  tree fs -> p <> [] ->
  Fs.lookup_node fs p <> Some Dir ->
  Fs.lookup_node fs (PyPath.parent p) = Some Dir ->
  tree (<[p := File c]> fs).
Proof.
  intros [Hroot Ht] Hne Hp Hpar. split.
  - now rewrite lookup_insert_ne.
  - assert (Hkeep : forall r, Fs.lookup_node fs r = Some Dir ->
                              Fs.lookup_node (<[p := File c]> fs) r = Some Dir).
    { intros r Hr. destruct r as [|a r]; [reflexivity|]. cbn [Fs.lookup_node] in *.
      rewrite lookup_insert_ne; [exact Hr|]. intros ->. cbn [Fs.lookup_node] in Hp.
      contradiction. }
    intros q x Hq. apply Hkeep.
    destruct (decide (p = q)) as [<-|Hpq]; [exact Hpar|].
    rewrite lookup_insert_ne in Hq by exact Hpq. eapply Ht, Hq.
Qed.

Lemma tree_delete_file (fs : FS) (p : path) (c : string) :
  tree fs -> fs !! p = Some (File c) -> tree (delete p fs).
Proof.
  intros Htree Hp. pose proof (tree_lookup_node _ _ _ Htree Hp) as Hnode.
  destruct Htree as [Hroot Ht]. split.
  - rewrite lookup_delete_ne; [exact Hroot|]. intros ->. rewrite Hroot in Hp. discriminate.
  - intros q x Hq.
    destruct (decide (p = q)) as [<-|Hpq]; [now rewrite lookup_delete_eq in Hq|].
    rewrite lookup_delete_ne in Hq by exact Hpq. apply Ht in Hq.
    destruct (PyPath.parent q) as [|a r] eqn:Hpar; [reflexivity|].
    cbn [Fs.lookup_node] in *. rewrite lookup_delete_ne; [exact Hq|].
    intros ->. congruence.
Qed.

Lemma keeps_tree_bind {A B} (m : IO A) (k : A -> IO B) :
  keeps_tree m -> (forall a, keeps_tree (k a)) -> keeps_tree (bind m k).
Proof.
  intros Hm Hk fs fs' r. unfold bind.
  destruct (m fs) as [fs1 [a|e]] eqn:H1.
  - intros H2 Ht. eapply Hk; [exact H2|]. eapply Hm; eauto.
  - intros [= <- _] Ht. eapply Hm; eauto.
Qed.

Lemma keeps_tree_ret {A} (a : A) : keeps_tree (ret a).
Proof. intros fs fs' r [= <- _]. trivial. Qed.

Lemma keeps_tree_os_mkdir (p : path) : keeps_tree (Fs.os_mkdir p).
Proof.
  intros fs fs' r H Ht.
  destruct p as [|a p]; [now injection H as <- _|].
  apply os_mkdir_cases in H as [(_ & -> & Hnone & Hpar)|[-> _]]; [|exact Ht].
  now apply tree_insert_dir.
Qed.

Lemma keeps_tree_mkdir_flat (exist_ok : bool) (p : path) : keeps_tree (Fs.mkdir_flat exist_ok p).
Proof.
  intros fs fs' r. unfold Fs.mkdir_flat, Fs.is_dir.
  destruct (Fs.os_mkdir p fs) as [fs1 r1] eqn:Hos. intros H Ht.
  pose proof (keeps_tree_os_mkdir _ _ _ _ Hos Ht) as Ht1.
  destruct r1 as [[]|[]]; try destruct (_ || _); injection H as <- _; exact Ht1.
Qed.

Lemma keeps_tree_mkdir_parents (exist_ok : bool) (rp : list string) :
  keeps_tree (Fs.mkdir_parents_rev exist_ok rp).
Proof.
  revert exist_ok. induction rp as [|a rp IH]; intros exist_ok fs fs' r H Ht;
    cbn [Fs.mkdir_parents_rev] in H; unfold Fs.is_dir in H;
    destruct (Fs.os_mkdir _ fs) as [fs1 r1] eqn:Hos;
    pose proof (keeps_tree_os_mkdir _ _ _ _ Hos Ht) as Ht1.
  - destruct r1 as [[]|[]]; try destruct (_ || _); injection H as <- _; exact Ht1.
  - destruct r1 as [[]|[]]; try destruct (_ || _); try (injection H as <- _; exact Ht1).
    eapply (keeps_tree_bind (Fs.mkdir_parents_rev true rp)); [apply IH| |exact H|exact Ht1].
    intros u. apply keeps_tree_mkdir_flat.
Qed.

Lemma keeps_tree_mkdir (p : path) : keeps_tree (Fs.mkdir true true p).
Proof. apply keeps_tree_mkdir_parents. Qed.

Lemma keeps_tree_with_open_w (p : path) (body : Fs.Writer) :
  keeps_tree (Fs.with_open_w p body).
Proof.
  intros fs fs' r. unfold Fs.with_open_w.
  destruct (Fs.lookup_node fs p) as [[c|]|] eqn:Hp;
    try (intros [= <- _]; trivial; fail);
    destruct (Fs.lookup_node fs (PyPath.parent p)) as [[c'|]|] eqn:Hpar;
    intros [= <- _] Ht; try exact Ht;
    (apply tree_insert_file; [exact Ht| |congruence|exact Hpar]);
    intros ->; discriminate.
Qed.

Lemma keeps_tree_write_if_absent (p : path) (body : Fs.Writer) :
  keeps_tree (write_if_absent p body).
Proof.
  unfold write_if_absent. apply keeps_tree_bind.
  - intros fs fs' r [= <- _]. trivial.
  - intros present. destruct (negb present); [|apply keeps_tree_ret].
    apply keeps_tree_bind; [apply keeps_tree_mkdir|intros u; apply keeps_tree_with_open_w].
Qed.

(** X12. [setup] keeps the file system a tree: whether it returns or raises,
    every entry of what it leaves lies in a directory. *)
Theorem setup_keeps_tree (context : Context) (repos : list RpmRepository)
    (filelists : bool) (fs fs' : FS) (r : result unit) :
  setup context repos filelists fs = (fs', r) ->
  tree fs -> tree fs'.
Proof.
  revert fs fs' r. change (keeps_tree (setup context repos filelists)).
  rewrite setup_unfold.
  apply keeps_tree_bind; [apply keeps_tree_mkdir|intros u1].
  apply keeps_tree_bind; [apply keeps_tree_mkdir|intros u2].
  apply keeps_tree_bind; [apply keeps_tree_write_if_absent|intros u3].
  apply keeps_tree_write_if_absent.
Qed.

Lemma prefix_snoc_cases (q l : path) (a : string) :
  q `prefix_of` l ++ [a] -> q = l ++ [a] \/ q `prefix_of` l.
Proof.
  intros [k Hk]. destruct k as [|b k _] using rev_ind.
  - left. now rewrite app_nil_r in Hk.
  - right. rewrite app_assoc in Hk. apply app_inj_tail in Hk as [-> _]. now exists k.
Qed.

(** In a tree, what lies above an entry is a directory. *)
Lemma tree_ancestors (fs : FS) (r q : path) :
  tree fs -> is_Some (Fs.lookup_node fs r) -> q `prefix_of` r ->
  q = r \/ Fs.lookup_node fs q = Some Dir.
Proof.
  intros Ht. revert q. induction r as [|a l IH] using rev_ind; intros q Hr Hq.
  - left. now apply prefix_nil_inv.
  - apply prefix_snoc_cases in Hq as [->|Hq]; [now left|]. right.
    destruct Hr as [x Hx]. rewrite lookup_node_below in Hx.
    destruct Ht as [Hroot Htree]. apply Htree in Hx.
    unfold PyPath.parent in Hx. rewrite removelast_last in Hx.
    destruct (IH q) as [->|Hdir]; eauto.
Qed.

(** In a tree, a regular file on the way stops [mkdir]: it raises and
    creates nothing. *)
Lemma mkdir_parents_blocked (rp : list string) (fs : FS) (q : path) (c : string) :
  tree fs -> q `prefix_of` rev rp -> fs !! q = Some (File c) ->
  exists e, Fs.mkdir_parents_rev true rp fs = (fs, Raised e).
Proof.
  intros Ht Hq Hfile. pose proof (tree_lookup_node _ _ _ Ht Hfile) as Hnode.
  induction rp as [|a rp IH].
  - apply prefix_nil_inv in Hq. subst q. discriminate.
  - cbn [rev] in Hq. pose proof Hq as Hq0. apply prefix_snoc_cases in Hq.
    assert (Hpar : PyPath.parent (rev (a :: rp)) = rev rp)
      by (cbn [rev]; apply removelast_last).
    cbn [Fs.mkdir_parents_rev]. unfold Fs.is_dir.
    destruct (Fs.os_mkdir _ fs) as [fs1 r1] eqn:Hos.
    apply os_mkdir_cases in Hos
      as [(-> & -> & Hnone & Hdir)|[-> [(-> & Hex)|[(-> & Hnone & _)|(-> & Hnone & Hnopar)]]]].
    + exfalso. cbn [rev] in *. destruct Hq as [->|Hq]; [congruence|].
      rewrite Hpar in Hdir.
      destruct (tree_ancestors fs (rev rp) q Ht) as [->|Hd]; eauto; congruence.
    + destruct (Fs.lookup_node fs (rev (a :: rp))) as [[c'|]|] eqn:Hl.
      * eauto.
      * exfalso. cbn [rev] in *.
        destruct (tree_ancestors fs (rev rp ++ [a]) q Ht) as [->|Hd]; eauto; congruence.
      * contradiction.
    + rewrite Hnone. eauto.
    + destruct Hq as [->|Hq]; [cbn [rev] in Hnone; congruence|].
      destruct (IH Hq) as [e He]. unfold bind. rewrite He. eauto.
Qed.

Lemma mkdir_blocked (p q : path) (c : string) (fs : FS) :
  tree fs -> q `prefix_of` p -> fs !! q = Some (File c) ->
  exists e, Fs.mkdir true true p fs = (fs, Raised e).
Proof.
  intros Ht Hq Hfile.
  apply (mkdir_parents_blocked (rev p) fs q c); [assumption| |assumption].
  now rewrite rev_involutive.
Qed.

(** X13. In a tree, a regular file where one of the two directories or one
    of their ancestors should be makes [setup] raise. *)
Theorem setup_blocked_by_file (context : Context) (repos : list RpmRepository)
    (filelists : bool) (fs : FS) (q : path) (c : string) :
  tree fs ->
  q `prefix_of` pkgmngr context // "etc/dnf/vars" \/
  q `prefix_of` pkgmngr context // "etc/yum.repos.d" ->
  fs !! q = Some (File c) ->
  exists fs' e, setup context repos filelists fs = (fs', Raised e).
Proof.
  intros Ht Hq Hfile. rewrite setup_unfold. unfold bind.
  rewrite vars_dir_eq, repos_dir_eq in Hq.
  destruct (Fs.mkdir true true (vars_dir context) fs) as [fs1 r1] eqn:H1.
  destruct r1 as [[]|e1]; [|eauto].
  destruct Hq as [Hq|Hq].
  - destruct (mkdir_blocked _ _ _ _ Ht Hq Hfile) as [e He]. congruence.
  - pose proof (keeps_tree_mkdir _ _ _ _ H1 Ht) as Ht1.
    pose proof (only_adds_dirs_keeps _ _ _ _ (mkdir_only_adds _ _ _ _ H1) Hfile) as Hfile1.
    destruct (mkdir_blocked _ _ _ _ Ht1 Hq Hfile1) as [e He]. rewrite He. eauto.
Qed.

(** ** More on the cleanup of invoke *)

Lemma unlink_logs_frame (entries : list path) (fs fs' : FS) (r : result unit) :
  unlink_logs entries fs = (fs', r) ->
  forall q, fs' !! q = fs !! q \/
            (fs' !! q = None /\ In q entries /\ is_log q = true /\
             exists c, fs !! q = Some (File c)).
Proof.
  revert fs. induction entries as [|p entries IH]; intros fs H q.
  - injection H as <- _. now left.
  - unfold unlink_logs in H. cbn [for_each] in H. unfold bind in H.
    destruct (is_log p) eqn:Hlog.
    + unfold Fs.unlink in H at 1.
      destruct (Fs.lookup_node fs p) as [[c|]|] eqn:Hp;
        try (injection H as <- _; now left).
      assert (Hfile : fs !! p = Some (File c)) by (destruct p; [discriminate|exact Hp]).
      destruct (IH _ H q) as [Hsame|(Hnone & Hin & Hq & c' & Hc')].
      * destruct (decide (p = q)) as [<-|Hne].
        -- right. rewrite Hsame, lookup_delete_eq. eauto 8 using in_eq.
        -- left. now rewrite Hsame, lookup_delete_ne.
      * right. repeat split; try assumption; [now right|].
        exists c'. destruct (decide (p = q)) as [<-|Hne];
          [now rewrite lookup_delete_eq in Hc' | now rewrite lookup_delete_ne in Hc'].
    + destruct (IH _ H q) as [Hsame|(Hnone & Hin & Hq & Hc)]; [now left|].
      right. repeat split; try assumption. now right.
Qed.

Lemma remove_logs_frame (context : Context) (fs fs' : FS) (r : result unit) :
  remove_logs context fs = (fs', r) ->
  forall q, fs' !! q = fs !! q \/
            (fs' !! q = None /\ Fs.is_child (root context // "var/log") q = true /\
             is_log q = true /\ exists c, fs !! q = Some (File c)).
Proof.
  rewrite remove_logs_unfold. unfold bind, Fs.exists_, Fs.iterdir. intros H q.
  destruct (Fs.lookup_node fs (root context // "var/log")) as [[c|]|] eqn:Hlog;
    cbn beta iota in H; rewrite ?Hlog in H; try (injection H as <- _; now left).
  destruct (unlink_logs_frame _ _ _ _ H q) as [Hsame|(Hnone & Hin & Hq & Hc)]; [now left|].
  right. apply children_spec in Hin as [Hchild _]. auto.
Qed.

(** X14. Whatever the [try:] block leaves and however the cleanup ends, the
    only thing that [invoke] does to the file system after the block is to
    delete regular files that are entries of [var/log] under the install
    root with a name that starts with [dnf], [hawkey] or [yum]: every other
    path holds what the block left. *)
Theorem invoke_only_removes_logs (context : Context) (operation : string)
    (arguments : list string) (apivfs : bool) (stdout : _FILE) (fs : FS) (q : path) :
  let fs1 := state_after (invoke_try context operation arguments apivfs stdout) fs in
  let fs2 := state_after (invoke context operation arguments apivfs stdout) fs in
  fs2 !! q = fs1 !! q \/
  (fs2 !! q = None /\ Fs.is_child (root context // "var/log") q = true /\
   is_log q = true /\ exists c, fs1 !! q = Some (File c)).
Proof.
  intros fs1 fs2. subst fs1 fs2. unfold state_after, invoke, try_finally.
  destruct (invoke_try context operation arguments apivfs stdout fs) as [fs1 r1].
  destruct (remove_logs context fs1) as [fs2 r2] eqn:Hclean.
  pose proof (remove_logs_frame _ _ _ _ Hclean q) as Hframe.
  destruct r2; exact Hframe.
Qed.

(** X15. When [var/log] under the install root is a regular file, the
    cleanup raises [NotADirectoryError]: [invoke] ends with that exception
    whatever the execution did, even when it returned, and the file system
    is as the [try:] block left it. *)
Theorem invoke_log_path_is_file (context : Context) (operation : string)
    (arguments : list string) (apivfs : bool) (stdout : _FILE)
    (fs fs1 : FS) (r : result CompletedProcess) (c : string) :
  invoke_try context operation arguments apivfs stdout fs = (fs1, r) ->
  fs1 !! (root context // "var/log") = Some (File c) ->
  invoke context operation arguments apivfs stdout fs = (fs1, Raised NotADirectoryError).
Proof.
  intros Htry Hfile. unfold invoke, try_finally. rewrite Htry.
  assert (Hnode : Fs.lookup_node fs1 (root context // "var/log") = Some (File c)).
  { change (root context // "var/log") with (root context ++ "var" :: ["log"]).
    rewrite lookup_node_below. exact Hfile. }
  rewrite remove_logs_unfold. unfold bind, Fs.exists_, Fs.iterdir.
  rewrite Hnode. cbn beta iota. rewrite Hnode. reflexivity.
Qed.

Lemma unlink_logs_nothing (entries : list path) (fs : FS) :
  List.Forall (fun p => is_log p = false) entries ->
  unlink_logs entries fs = (fs, Returned tt).
Proof.
  induction 1 as [|p entries Hp _ IH]; [reflexivity|].
  unfold unlink_logs. cbn [for_each]. unfold bind. rewrite Hp. exact IH.
Qed.

Lemma unlink_logs_returned (entries : list path) (fs fs' : FS) :
  unlink_logs entries fs = (fs', Returned tt) ->
  forall q, In q entries -> is_log q = true -> fs' !! q = None.
Proof.
  revert fs. induction entries as [|p entries IH]; intros fs H q Hin Hq; [destruct Hin|].
  unfold unlink_logs in H. cbn [for_each] in H. unfold bind in H.
  destruct (is_log p) eqn:Hlog.
  - unfold Fs.unlink in H at 1.
    destruct (Fs.lookup_node fs p) as [[c|]|] eqn:Hp; try discriminate.
    destruct (decide (p = q)) as [<-|Hne].
    + destruct (unlink_logs_frame _ _ _ _ H p) as [Hsame|(Hnone & _)]; [|exact Hnone].
      now rewrite Hsame, lookup_delete_eq.
    + destruct Hin as [->|Hin]; [contradiction|]. exact (IH _ H q Hin Hq).
  - destruct Hin as [->|Hin]; [congruence|]. exact (IH _ H q Hin Hq).
Qed.

(** X16. The cleanup is idempotent: after a cleanup that returned, a second
    one returns and changes nothing. *)
Theorem remove_logs_twice (context : Context) (fs fs' : FS) :
  remove_logs context fs = (fs', Returned tt) ->
  remove_logs context fs' = (fs', Returned tt).
Proof.
  intros H. pose proof (remove_logs_frame _ _ _ _ H) as Hframe. revert H.
  rewrite !remove_logs_unfold. unfold bind, Fs.exists_, Fs.iterdir.
  set (log := root context // "var/log") in *.
  assert (Hlogne : exists a l, log = root context ++ a :: l)
    by (exists "var", ["log"]; reflexivity).
  destruct Hlogne as (a & l & Hlogeq).
  assert (Hsame : Fs.lookup_node fs' log = Fs.lookup_node fs log).
  { rewrite Hlogeq, !lookup_node_below, <- Hlogeq.
    destruct (Hframe log) as [E|(_ & Hchild & _)]; [exact E|].
    apply bool_decide_eq_true in Hchild as [Hne Hpar].
    apply parent_fixed in Hpar. contradiction. }
  rewrite Hsame.
  destruct (Fs.lookup_node fs log) as [[c|]|] eqn:Hlog; cbn beta iota;
    rewrite ?Hsame, ?Hlog; try discriminate; [|now intros [= <-]].
  intros H. apply unlink_logs_nothing. apply List.Forall_forall. intros q Hq.
  apply children_spec in Hq as [Hchild [x Hx]].
  destruct (is_log q) eqn:Hlq; [|reflexivity]. exfalso.
  assert (Hwas : is_Some (fs !! q)).
  { destruct (Hframe q) as [E|(Hnone & _)]; [rewrite <- E; eauto | congruence]. }
  rewrite (unlink_logs_returned _ _ _ H q) in Hx; [discriminate| |exact Hlq].
  apply children_spec. auto.
Qed.

Lemma keeps_tree_unlink (p : path) : keeps_tree (Fs.unlink p).
Proof.
  intros fs fs' r. unfold Fs.unlink.
  destruct (Fs.lookup_node fs p) as [[c|]|] eqn:Hp; intros [= <- _] Ht; try exact Ht.
  destruct p as [|a p]; [discriminate|]. eapply tree_delete_file; eauto.
Qed.

Lemma keeps_tree_for_each {A} (l : list A) (body : A -> IO unit) :
  (forall x, keeps_tree (body x)) -> keeps_tree (for_each l body).
Proof.
  intros Hbody. induction l as [|x l IH]; [apply keeps_tree_ret|].
  cbn [for_each]. apply keeps_tree_bind; [apply Hbody | intros u; exact IH].
Qed.

Lemma keeps_tree_remove_logs (context : Context) : keeps_tree (remove_logs context).
Proof.
  rewrite remove_logs_unfold. apply keeps_tree_bind.
  - intros fs fs' r [= <- _]. trivial.
  - intros present. destruct present; [|apply keeps_tree_ret].
    apply keeps_tree_bind.
    + intros fs fs' r. unfold Fs.iterdir.
      destruct (Fs.lookup_node fs _) as [[c|]|]; intros [= <- _]; trivial.
    + intros entries. apply keeps_tree_for_each. intros p.
      destruct (is_log p); [apply keeps_tree_unlink | apply keeps_tree_ret].
Qed.

(** X17. The cleanup of [invoke] keeps the file system a tree: when what
    the [try:] block left is a tree, so is what [invoke] leaves, however the
    execution and the cleanup end. *)
Theorem invoke_cleanup_keeps_tree (context : Context) (operation : string)
    (arguments : list string) (apivfs : bool) (stdout : _FILE) (fs : FS) :
  tree (state_after (invoke_try context operation arguments apivfs stdout) fs) ->
  tree (state_after (invoke context operation arguments apivfs stdout) fs).
Proof.
  unfold state_after, invoke, try_finally.
  destruct (invoke_try context operation arguments apivfs stdout fs) as [fs1 r1].
  destruct (remove_logs context fs1) as [fs2 r2] eqn:Hclean. cbn [fst]. intros Ht.
  pose proof (keeps_tree_remove_logs _ _ _ _ Hclean Ht). now destruct r2.
Qed.

(** ** cache_subdirs *)

Lemma comprehension_cache (entries : list path) (fs : FS) :
  comprehension entries
    (fun p =>
       d <- Fs.is_dir p ;;
       ret (d && PyStr.contains_str "-" (Fs.name p)
              && negb (PyStr.contains_str "mkosi" (Fs.name p))))
    (fun p => p // "packages") fs =
  (fs, Returned (map (fun p => p // "packages") (List.filter (is_package_cache fs) entries))).
Proof.
  induction entries as [|p entries IH]; [reflexivity|].
  cbn [comprehension List.filter]. unfold bind, Fs.is_dir, ret in IH |- *.
  rewrite IH. unfold is_package_cache.
  destruct (_ && _ && _); reflexivity.
Qed.

Lemma is_child_snoc (d p : path) :
  Fs.is_child d p = true <-> p = d ++ [Fs.name p] /\ p <> [].
Proof.
  unfold Fs.is_child, Fs.name. rewrite bool_decide_eq_true. split.
  - intros [Hne <-]. split; [|exact Hne]. now apply app_removelast_last.
  - intros [Hp Hne]. split; [exact Hne|]. rewrite Hp at 1. apply removelast_last.
Qed.


(** ** createrepo when a step fails *)


(** X20. [createrepo] after [setup]: when [setup] has returned and the run
    of [createrepo_c] returns, keeps what was there and puts no directory
    where [mkosi-local.repo] goes, the directory that [setup] has made is
    the one [createrepo] writes into: the write does not raise, [createrepo]
    goes on to [sync], and the file [mkosi.repo] of [setup] is as [setup]
    left it. *)
Theorem createrepo_after_setup (context : Context) (repos : list RpmRepository)
    (filelists : bool) (fs0 fs fs1 : FS) (cp : CompletedProcess) :
  let local := pkgmngr context // "etc/yum.repos.d/mkosi-local.repo" in
  setup context repos filelists fs0 = (fs, Returned tt) ->
  run ["createrepo_c"; PyPath.fspath (packages context)]
    (sandbox context None
       ["--bind"; PyPath.fspath (packages context); PyPath.fspath (packages context)])
    None None fs = (fs1, Returned cp) ->
  fs ⊆ fs1 ->
  fs1 !! local <> Some Dir ->
  let written := <[local := File (Textwrap.dedent local_repo_template)]> fs1 in
  createrepo context fs =
    sync context ["--disablerepo=*"; "--enablerepo=mkosi"] written /\
  written !! (pkgmngr context // "etc/yum.repos.d/mkosi.repo") =
    fs !! (pkgmngr context // "etc/yum.repos.d/mkosi.repo") /\
  is_Some (fs !! (pkgmngr context // "etc/yum.repos.d/mkosi.repo")).
Proof.
  intros local Hsetup Hrun Hsub Hlocal written.
  apply setup_returned in Hsetup as (_ & Hdir & _ & Hrepo).
  unfold repos_dir, mkosi_repo in Hdir, Hrepo. rewrite lookup_node_below in Hdir, Hrepo.
  assert (Hpar : PyPath.parent local = pkgmngr context // "etc/yum.repos.d")
    by apply (parent_div_file _ "" "mkosi-local.repo" ["etc"; "yum.repos.d"]).
  assert (Hnode : Fs.lookup_node fs1 local = fs1 !! local)
    by apply (lookup_node_below fs1 (pkgmngr context) "etc" ["yum.repos.d"; "mkosi-local.repo"]).
  assert (Hwrite : Fs.write_text local (Textwrap.dedent local_repo_template) fs1 =
                   (written, Returned tt)).
  { apply write_text_overwrites.
    - rewrite Hpar. change (pkgmngr context // "etc/yum.repos.d")
        with (pkgmngr context ++ "etc" :: ["yum.repos.d"]).
      rewrite lookup_node_below. exact (lookup_weaken _ _ _ _ Hdir Hsub).
    - now rewrite Hnode. }
  apply not_eq_None_Some in Hrepo. destruct Hrepo as [x Hx].
  split; [|split].
  - unfold createrepo. unfold bind at 1. rewrite Hrun. unfold bind at 1. fold local.
    now rewrite Hwrite.
  - subst written. rewrite lookup_insert_ne.
    + transitivity (Some x); [exact (lookup_weaken _ _ _ _ Hx Hsub)|symmetry; exact Hx].
    + subst local. intros E. apply app_inv_head in E. discriminate.
  - exists x. exact Hx.
Qed.

End Dnf.

(** * The properties on sample inputs *)

Example dedent_sample :
  Textwrap.dedent ("    a" +:+ PyStr.nl +:+ "      b" +:+ PyStr.nl +:+ "    ") =
  "a" +:+ PyStr.nl +:+ "  b" +:+ PyStr.nl.
Proof. vm_compute. reflexivity. Qed.

(** A line without indentation keeps the margin of all the others. *)
Example dedent_no_margin :
  Textwrap.dedent ("    a" +:+ PyStr.nl +:+ "b" +:+ PyStr.nl +:+ "    ") =
  "    a" +:+ PyStr.nl +:+ "b" +:+ PyStr.nl.
Proof. vm_compute. reflexivity. Qed.

Example name_of_absolute_path : PyPath.name "/usr/bin/dnf5" = "dnf5".
Proof. reflexivity. Qed.

Example name_of_directory : PyPath.name "/opt/tools/" = "tools".
Proof. reflexivity. Qed.

Example name_of_root : PyPath.name "/" = "".
Proof. reflexivity. Qed.

Example div_sample :
  ["work"; "pkgmngr"] // "etc/dnf/vars" = ["work"; "pkgmngr"; "etc"; "dnf"; "vars"].
Proof. reflexivity. Qed.

Example executable_found_dnf5 :
  executable usr_bin (sample_config ∅ Cacheonly.default) = "dnf5".
Proof. vm_compute. reflexivity. Qed.

Example executable_fallback :
  executable no_binary (sample_config ∅ Cacheonly.default) = "yum".
Proof. vm_compute. reflexivity. Qed.

Example executable_override :
  executable usr_bin (sample_config {["MKOSI_DNF" := "/opt/bin/dnf"]} Cacheonly.default) = "dnf".
Proof. vm_compute. reflexivity. Qed.

(** ** The sample workspaces hold directories only, or one edited file *)

Lemma empty_workspace_dirs (q : path) (x : node) :
  empty_workspace !! q = Some x -> x = Dir.
Proof.
  unfold empty_workspace. intros H.
  repeat (rewrite lookup_insert in H; case_decide; [congruence|]).
  now rewrite lookup_empty in H.
Qed.

Lemma empty_workspace_no_file (p : path) : no_file_on empty_workspace p.
Proof. intros q c _ H. apply empty_workspace_dirs in H. discriminate. Qed.

(** ** C1 *)

Lemma setup_twice_keeps_files_witness :
  let context := sample_context ∅ Cacheonly.default in
  let context' := sample_context {["MKOSI_DNF" := "dnf"]} Cacheonly.always in
  let conf := ["work"; "pkgmngr"; "etc"; "dnf"; "dnf.conf"] in
  let repo := ["work"; "pkgmngr"; "etc"; "yum.repos.d"; "mkosi.repo"] in
  let fs1 := state_after (setup usr_bin context [base_repo] true) empty_workspace in
  let fs2 := state_after (setup usr_bin context' [secure_repo] false) fs1 in
  fs1 !! conf =
    Some (File ("[main]" +:+ PyStr.nl +:+ "optional_metadata_types=filelists" +:+ PyStr.nl)) /\
  fs2 !! conf = fs1 !! conf /\
  fs1 !! repo = Some (File (write_repo base_repo "")) /\
  fs2 !! repo = fs1 !! repo /\
  setup usr_bin context' [secure_repo] false fs1 = (fs1, Returned tt).
Proof.
  intros context context' conf repo fs1 fs2.
  destruct (setup_twice_keeps_files usr_bin context context' [base_repo] [secure_repo]
              true false empty_workspace eq_refl) as (Hconf & Hrepo & Hreturned).
  assert (Hc : fs1 !! conf =
    Some (File ("[main]" +:+ PyStr.nl +:+ "optional_metadata_types=filelists" +:+ PyStr.nl)))
    by (vm_compute; reflexivity).
  assert (Hr : fs1 !! repo = Some (File (write_repo base_repo "")))
    by (vm_compute; reflexivity).
  split; [exact Hc|]. split; [|split; [exact Hr|split]].
  - rewrite Hc. apply Hconf. exact Hc.
  - rewrite Hr. apply Hrepo. exact Hr.
  - apply Hreturned. vm_compute. reflexivity.
Defined.

(** ** C2 *)

(** C2 as stated fails here: [MKOSI_DNF] set to the empty string is passed
    over, the result is not the name of the override but that of the binary
    found. *)
Lemma executable_empty_override :
  let config := sample_config {["MKOSI_DNF" := ""]} Cacheonly.default in
  environment config !! "MKOSI_DNF" = Some "" /\
  executable usr_bin config = "dnf5" /\
  executable usr_bin config <> PyPath.name "".
Proof. vm_compute. repeat split. discriminate. Qed.

Lemma executable_resolution_witness :
  executable only_dnf
    (sample_config {["MKOSI_DNF" := "/opt/tools/bin/dnf-3"]} Cacheonly.default) = "dnf-3" /\
  executable only_dnf (sample_config {["MKOSI_DNF" := ""]} Cacheonly.default) = "dnf".
Proof.
  assert (Hname : forall env name p, name = "dnf5" \/ name = "dnf" ->
            only_dnf name (tools (sample_config env Cacheonly.default)) = Some p ->
            PyPath.name p = name).
  { intros env name p [-> | ->]; [discriminate|]. intros [= <-]. reflexivity. }
  split.
  - destruct (executable_resolution only_dnf _ (Hname {["MKOSI_DNF" := "/opt/tools/bin/dnf-3"]}))
      as (_ & Hoverride & _).
    apply (Hoverride "/opt/tools/bin/dnf-3"); [reflexivity | discriminate].
  - destruct (executable_resolution only_dnf _ (Hname {["MKOSI_DNF" := ""]}))
      as (_ & _ & Hsearch).
    destruct (Hsearch (or_intror eq_refl)) as (_ & Hdnf & _).
    apply Hdnf; [reflexivity | discriminate].
Defined.

(** ** C3 *)


(** ** C4 *)

Lemma setup_minimal_repository_witness :
  exists fs',
    setup no_binary (sample_context ∅ Cacheonly.default) [base_repo] true empty_workspace =
      (fs', Returned tt) /\
    fs' !! ["work"; "pkgmngr"; "etc"; "yum.repos.d"; "mkosi.repo"] =
      Some (File ("[base]" +:+ PyStr.nl +:+
                  "name=base" +:+ PyStr.nl +:+
                  "baseurl=file:///repo" +:+ PyStr.nl +:+
                  "gpgcheck=1" +:+ PyStr.nl +:+
                  "enabled=1" +:+ PyStr.nl +:+
                  "gpgkey=file:///key" +:+ PyStr.nl +:+
                  PyStr.nl)).
Proof.
  apply (setup_minimal_repository no_binary (sample_context ∅ Cacheonly.default) true
           empty_workspace).
  - apply empty_workspace_no_file.
  - apply empty_workspace_no_file.
  - vm_compute. reflexivity.
Defined.

(** ** C5 *)


Example cmd_sample :
  cmd usr_bin false (sample_context ∅ Cacheonly.default) =
  ["env"; "HOME=/"; "dnf5"; "--assumeyes"; "--best"; "--releasever=40";
   "--installroot=/work/root"; "--setopt=keepcache=1"; "--setopt=logdir=/var/log";
   "--setopt=cachedir=/var/cache/libdnf5"; "--setopt=persistdir=/var/lib/libdnf5";
   "--setopt=install_weak_deps=0"; "--setopt=check_config_file_age=0";
   "--disable-plugin=*"; "--enable-plugin=builddep"; "--enable-repo=updates-testing";
   "--setopt=metadata_expire=never"; "--setopt=cacheonly=metadata"; "--no-docs";
   "--use-host-config"].
Proof. vm_compute. reflexivity. Qed.

(** ** C6 *)

(** C6 as stated fails here: an entry of [var/log] with the name of a log
    that is a directory is not deleted, [unlink] raises on it, and [invoke]
    ends with that exception although the execution returned. *)
Lemma invoke_keeps_log_directory :
  let context := sample_context ∅ Cacheonly.default in
  let entry := ["work"; "root"; "var"; "log"; "dnf"] in
  let body := invoke_try no_binary false 0%Z run_log_directory sample_sandbox sample_mounts
                sample_apivfs_cmd sample_enter sample_exit context "install" ["bash"]
                false None in
  let call := invoke no_binary false 0%Z run_log_directory sample_sandbox sample_mounts
                sample_apivfs_cmd sample_enter sample_exit context "install" ["bash"]
                false None in
  (exists cp, outcome body empty_workspace = Returned cp) /\
  Fs.is_child (root context // "var/log") entry = true /\
  is_log entry = true /\
  state_after call empty_workspace !! entry = Some Dir /\
  outcome call empty_workspace = Raised IsADirectoryError.
Proof. vm_compute. repeat split. eexists. reflexivity. Qed.

Lemma invoke_removes_logs_witness :
  let context := sample_context ∅ Cacheonly.default in
  let body := invoke_try no_binary false 0%Z (run_logging 1) sample_sandbox sample_mounts
                sample_apivfs_cmd sample_enter sample_exit context "install" ["bash"]
                false None in
  let call := invoke no_binary false 0%Z (run_logging 1) sample_sandbox sample_mounts
                sample_apivfs_cmd sample_enter sample_exit context "install" ["bash"]
                false None in
  exists fs2,
    call empty_workspace = (fs2, Raised (CalledProcessError 1)) /\
    fs2 !! ["work"; "root"; "var"; "log"; "dnf5.log"] = None /\
    fs2 !! ["work"; "root"; "var"; "log"; "hawkey.log"] = None /\
    fs2 !! ["work"; "root"; "var"; "log"; "yum.log"] = None /\
    fs2 !! ["work"; "root"; "var"; "log"; "messages"] = Some (File "boot").
Proof.
  intros context body call.
  destruct (invoke_removes_logs no_binary false 0%Z (run_logging 1) sample_sandbox
              sample_mounts sample_apivfs_cmd sample_enter sample_exit context
              "install" ["bash"] false None empty_workspace
              (state_after body empty_workspace) (Raised (CalledProcessError 1)) eq_refl)
    as [Hdir _].
  destruct Hdir as (fs2 & Hcall & Hgone & Hkept).
  - vm_compute. reflexivity.
  - intros q Hchild Hlog Hq.
    change (state_after body empty_workspace) with
      (<[ ["work"; "root"; "var"; "log"; "messages"] := File "boot" ]>
        (<[ ["work"; "root"; "var"; "log"; "yum.log"] := File "y" ]>
           (<[ ["work"; "root"; "var"; "log"; "hawkey.log"] := File "h" ]>
              (<[ ["work"; "root"; "var"; "log"; "dnf5.log"] := File "d" ]>
                 (<[ ["work"; "root"; "var"; "log"] := Dir ]>
                    (<[ ["work"; "root"; "var"] := Dir ]> empty_workspace)))))) in Hq.
    unfold empty_workspace in Hq.
    repeat (rewrite lookup_insert in Hq; case_decide;
            [first [discriminate Hq | subst q; vm_compute in Hchild; discriminate Hchild]|]).
    now rewrite lookup_empty in Hq.
  - exists fs2. split; [exact Hcall|]. repeat split.
    + apply Hgone; vm_compute; reflexivity.
    + apply Hgone; vm_compute; reflexivity.
    + apply Hgone; vm_compute; reflexivity.
    + rewrite Hkept; [vm_compute; reflexivity|].
      intros [_ Hlog]. vm_compute in Hlog. discriminate Hlog.
Defined.

(** ** C7 *)

Lemma createrepo_overwrites_witness :
  let context := sample_context ∅ Cacheonly.default in
  let local := ["work"; "pkgmngr"; "etc"; "yum.repos.d"; "mkosi-local.repo"] in
  customized_workspace !! local = Some (File "[mine]") /\
  createrepo usr_bin false 0%Z run_quiet sample_sandbox sample_mounts sample_apivfs_cmd
    sample_enter sample_exit context customized_workspace =
  sync usr_bin false 0%Z run_quiet sample_sandbox sample_mounts sample_apivfs_cmd
    sample_enter sample_exit context ["--disablerepo=*"; "--enablerepo=mkosi"]
    (<[local := File ("[mkosi]" +:+ PyStr.nl +:+
                      "name=mkosi" +:+ PyStr.nl +:+
                      "baseurl=file:///work/packages" +:+ PyStr.nl +:+
                      "gpgcheck=0" +:+ PyStr.nl +:+
                      "metadata_expire=never" +:+ PyStr.nl +:+
                      "priority=50" +:+ PyStr.nl)]> customized_workspace).
Proof.
  intros context local. split; [vm_compute; reflexivity|].
  apply (createrepo_overwrites usr_bin false 0%Z run_quiet sample_sandbox sample_mounts
           sample_apivfs_cmd sample_enter sample_exit context customized_workspace
           customized_workspace
           {| args := ["createrepo_c"; "/work/packages"]; returncode := 0 |}).
  - reflexivity.
  - vm_compute. reflexivity.
  - vm_compute. discriminate.
Defined.

(** The command line that [createrepo] ends with. *)
Example sync_command_line :
  outcome
    (sync only_dnf false 0%Z run_quiet sample_sandbox sample_mounts sample_apivfs_cmd
       sample_enter sample_exit (sample_context ∅ Cacheonly.always)
       ["--disablerepo=*"; "--enablerepo=mkosi"])
    empty_workspace = Returned tt /\
  outcome
    (invoke only_dnf false 0%Z run_quiet sample_sandbox sample_mounts sample_apivfs_cmd
       sample_enter sample_exit (sample_context ∅ Cacheonly.always)
       "makecache" ["--refresh"; "--disablerepo=*"; "--enablerepo=mkosi"] false None)
    empty_workspace =
  Returned
    {| args :=
         ["env"; "HOME=/"; "dnf"; "--assumeyes"; "--best"; "--releasever=40";
          "--installroot=/work/root"; "--setopt=keepcache=1"; "--setopt=logdir=/var/log";
          "--setopt=cachedir=/var/cache/dnf"; "--setopt=persistdir=/var/lib/dnf";
          "--setopt=install_weak_deps=0"; "--setopt=check_config_file_age=0";
          "--disableplugin=*"; "--enableplugin=builddep"; "--enablerepo=updates-testing";
          "--cacheonly"; "--nodocs"; "--config=/etc/dnf/dnf.conf";
          "--setopt=reposdir=/etc/yum.repos.d"; "--setopt=varsdir=/etc/dnf/vars";
          "makecache"; "--refresh"; "--disablerepo=*"; "--enablerepo=mkosi"];
       returncode := 0 |}.
Proof. vm_compute. split; reflexivity. Qed.

(** ** C8 *)

(** C8, where the code departs from it. Two executables that both end with
    [dnf5], the test of [cmd] and [setup] for the next generation, get
    different directories from [subdir], which tests the name for equality
    with [dnf5]: the command line of the second one has the options of the
    next generation and the cache directory of the legacy one. *)
Theorem subdir_differs_within_next_gen :
  let config1 := sample_config {["MKOSI_DNF" := "dnf5"]} Cacheonly.default in
  let config2 := sample_config {["MKOSI_DNF" := "/usr/local/bin/my-dnf5"]} Cacheonly.default in
  executable no_binary config1 = "dnf5" /\
  executable no_binary config2 = "my-dnf5" /\
  PyStr.endswith (executable no_binary config1) "dnf5" = true /\
  PyStr.endswith (executable no_binary config2) "dnf5" = true /\
  subdir no_binary config1 = "libdnf5" /\
  subdir no_binary config2 = "dnf" /\
  In "--use-host-config" (cmd no_binary false (sample_context {["MKOSI_DNF" := "/usr/local/bin/my-dnf5"]} Cacheonly.default)) /\
  In "--setopt=cachedir=/var/cache/dnf" (cmd no_binary false (sample_context {["MKOSI_DNF" := "/usr/local/bin/my-dnf5"]} Cacheonly.default)).
Proof. vm_compute. repeat split; tauto. Qed.

(** ** C9 *)

(** C9, where the code departs from it. A descriptor that carries the
    priority 0 gets no [priority=] line: the stanza is the one of the same
    descriptor without a priority. With the priority 5 the line is there,
    and the three ssl lines are there as their fields are. *)
Theorem priority_zero_not_written :
  priority secure_repo = Some 0%Z /\
  write_repo secure_repo "" =
    "[updates]" +:+ PyStr.nl +:+
    "name=updates" +:+ PyStr.nl +:+
    "mirrorlist=https://mirror/list" +:+ PyStr.nl +:+
    "gpgcheck=1" +:+ PyStr.nl +:+
    "enabled=0" +:+ PyStr.nl +:+
    "sslcacert=/etc/pki/ca.pem" +:+ PyStr.nl +:+
    "sslclientcert=/etc/pki/client.pem" +:+ PyStr.nl +:+
    "sslclientkey=/etc/pki/client.key" +:+ PyStr.nl +:+
    "gpgkey=file:///k1" +:+ PyStr.nl +:+
    "       file:///k2" +:+ PyStr.nl +:+
    "       https://keys/k3" +:+ PyStr.nl +:+
    PyStr.nl /\
  write_repo secure_repo "" = write_repo (with_priority secure_repo None) "" /\
  write_repo (with_priority secure_repo (Some 5%Z)) "" =
    "[updates]" +:+ PyStr.nl +:+
    "name=updates" +:+ PyStr.nl +:+
    "mirrorlist=https://mirror/list" +:+ PyStr.nl +:+
    "gpgcheck=1" +:+ PyStr.nl +:+
    "enabled=0" +:+ PyStr.nl +:+
    "sslcacert=/etc/pki/ca.pem" +:+ PyStr.nl +:+
    "sslclientcert=/etc/pki/client.pem" +:+ PyStr.nl +:+
    "sslclientkey=/etc/pki/client.key" +:+ PyStr.nl +:+
    "priority=5" +:+ PyStr.nl +:+
    "gpgkey=file:///k1" +:+ PyStr.nl +:+
    "       file:///k2" +:+ PyStr.nl +:+
    "       https://keys/k3" +:+ PyStr.nl +:+
    PyStr.nl.
Proof. vm_compute. repeat split. Qed.

(** ** C10 *)

Lemma setup_empty_repositories_witness :
  let context := sample_context ∅ Cacheonly.default in
  exists fs1,
    setup usr_bin context [] true empty_workspace = (fs1, Returned tt) /\
    fs1 !! ["work"; "pkgmngr"; "etc"; "yum.repos.d"; "mkosi.repo"] = Some (File "") /\
    for_each [(context, [base_repo], true); (context, [secure_repo; base_repo], false)]
      (fun call => setup usr_bin (fst (fst call)) (snd (fst call)) (snd call)) fs1 =
      (fs1, Returned tt).
Proof.
  intros context.
  destruct (setup_empty_repositories usr_bin context true empty_workspace)
    as (fs1 & Hsetup & Hfile & Hlater).
  - apply empty_workspace_no_file.
  - apply empty_workspace_no_file.
  - vm_compute. reflexivity.
  - exists fs1. split; [exact Hsetup|]. split; [exact Hfile|].
    apply Hlater. repeat constructor.
Defined.

(** * More properties on sample inputs *)

(** The state and the outcome of a run together are the run. *)
Lemma run_io {A} (m : IO A) (fs : FS) (r : result A) :
  outcome m fs = r -> m fs = (state_after m fs, r).
Proof. unfold outcome, state_after. intros <-. now destruct (m fs). Qed.

(** A file system built by insertions of entries whose parents are there
    is a tree. *)
Ltac tree_of_insertions :=
  split; [vm_compute; reflexivity|];
  intros p x Hp;
  repeat (rewrite lookup_insert in Hp; case_decide;
          [subst p; vm_compute; reflexivity|]);
  now rewrite lookup_empty in Hp.

Lemma tree_empty_workspace : tree empty_workspace.
Proof. unfold empty_workspace. tree_of_insertions. Qed.

Lemma tree_blocked_workspace : tree blocked_workspace.
Proof. unfold blocked_workspace, empty_workspace. tree_of_insertions. Qed.

(** ** X4 *)

Lemma cmd_variant_spelling_witness :
  let next_gen := skipn 3 (cmd usr_bin false (sample_context ∅ Cacheonly.default)) in
  let legacy := skipn 3 (cmd only_dnf false (sample_context ∅ Cacheonly.default)) in
  (In "--use-host-config" next_gen /\ ~ In "--nodocs" next_gen) /\
  (In "--setopt=varsdir=/etc/dnf/vars" legacy /\ ~ In "--no-docs" legacy).
Proof.
  intros next_gen legacy. split.
  - destruct (cmd_variant_spelling usr_bin false (sample_context ∅ Cacheonly.default))
      as (options & Hcmd & Hnext & _).
    subst next_gen. rewrite Hcmd. cbn [skipn].
    assert (Hend : PyStr.endswith
                     (executable usr_bin (config (sample_context ∅ Cacheonly.default)))
                     "dnf5" = true) by (vm_compute; reflexivity).
    destruct (Hnext Hend) as [Hin Hout].
    rewrite List.Forall_forall in Hin, Hout.
    split; [apply Hin|apply Hout]; cbn [In]; found.
  - destruct (cmd_variant_spelling only_dnf false (sample_context ∅ Cacheonly.default))
      as (options & Hcmd & _ & Hold).
    subst legacy. rewrite Hcmd. cbn [skipn].
    assert (Hend : PyStr.endswith
                     (executable only_dnf (config (sample_context ∅ Cacheonly.default)))
                     "dnf5" = false) by (vm_compute; reflexivity).
    destruct (Hold Hend) as [Hin Hout].
    rewrite List.Forall_forall in Hin, Hout.
    split; [apply Hin|apply Hout]; cbn [In]; found.
Defined.

(** ** X5 *)

Lemma cmd_switches_witness :
  let plain := skipn 3 (cmd usr_bin false (sample_context ∅ Cacheonly.default)) in
  let cross := skipn 3 (cmd usr_bin true cross_context) in
  (~ In "--setopt=debuglevel=10" plain /\ ~ In "--nogpgcheck" plain /\
   (In "--no-docs" plain \/ In "--nodocs" plain)) /\
  (In "--setopt=debuglevel=10" cross /\ In "--nogpgcheck" cross /\
   ~ (In "--no-docs" cross \/ In "--nodocs" cross)).
Proof.
  intros plain cross. split.
  - destruct (cmd_switches usr_bin false (sample_context ∅ Cacheonly.default))
      as (options & Hcmd & Hdebug & Hgpg & Hdocs).
    subst plain. rewrite Hcmd. cbn [skipn]. repeat split.
    + intros H. apply Hdebug in H. discriminate H.
    + intros H. apply Hgpg in H. discriminate H.
    + apply Hdocs. reflexivity.
  - destruct (cmd_switches usr_bin true cross_context)
      as (options & Hcmd & Hdebug & Hgpg & Hdocs).
    subst cross. rewrite Hcmd. cbn [skipn]. repeat split.
    + apply Hdebug. reflexivity.
    + apply Hgpg. reflexivity.
    + intros H. apply Hdocs in H. discriminate H.
Defined.

(** ** X6 *)

Lemma executable_autodetected_witness :
  let config := sample_config {["MKOSI_DNF" := ""]} Cacheonly.default in
  (executable only_dnf config = "dnf5" \/ executable only_dnf config = "dnf" \/
   executable only_dnf config = "yum") /\
  (PyStr.endswith (executable only_dnf config) "dnf5" = true <->
   executable only_dnf config = "dnf5") /\
  (subdir only_dnf config = "libdnf5" <->
   PyStr.endswith (executable only_dnf config) "dnf5" = true).
Proof.
  intros config. apply (executable_autodetected only_dnf config).
  - intros name p [-> | ->]; [discriminate|]. intros [= <-]. reflexivity.
  - right. reflexivity.
Defined.

(** ** X7 *)

Lemma stanza_of_clean_descriptor_witness :
  write_repo secure_repo "" =
    "[updates]" +:+ PyStr.nl +:+
    "name=updates" +:+ PyStr.nl +:+
    "mirrorlist=https://mirror/list" +:+ PyStr.nl +:+
    "gpgcheck=1" +:+ PyStr.nl +:+
    "enabled=0" +:+ PyStr.nl +:+
    "sslcacert=/etc/pki/ca.pem" +:+ PyStr.nl +:+
    "sslclientcert=/etc/pki/client.pem" +:+ PyStr.nl +:+
    "sslclientkey=/etc/pki/client.key" +:+ PyStr.nl +:+
    "gpgkey=file:///k1" +:+ PyStr.nl +:+
    "       file:///k2" +:+ PyStr.nl +:+
    "       https://keys/k3" +:+ PyStr.nl +:+
    PyStr.nl.
Proof.
  rewrite (stanza_of_clean_descriptor secure_repo)
    by (vm_compute; reflexivity).
  vm_compute. reflexivity.
Defined.

(** ** X8 *)


(** ** X9 *)


(** ** X10 *)


(** ** X11 *)

Lemma setup_postcondition_witness :
  let fs' := state_after (setup usr_bin (sample_context ∅ Cacheonly.default) [] false)
               empty_workspace in
  fs' !! ["work"; "pkgmngr"; "etc"; "dnf"; "vars"] = Some Dir /\
  fs' !! ["work"; "pkgmngr"; "etc"; "yum.repos.d"] = Some Dir /\
  is_Some (fs' !! ["work"; "pkgmngr"; "etc"; "dnf"; "dnf.conf"]) /\
  is_Some (fs' !! ["work"; "pkgmngr"; "etc"; "yum.repos.d"; "mkosi.repo"]).
Proof.
  intros fs'.
  apply (setup_postcondition usr_bin (sample_context ∅ Cacheonly.default) [] false
           empty_workspace fs').
  apply run_io. vm_compute. reflexivity.
Defined.

(** ** X12 *)

Lemma setup_keeps_tree_witness :
  tree (state_after (setup usr_bin (sample_context ∅ Cacheonly.default)
                       [base_repo; secure_repo] true) empty_workspace) /\
  tree (state_after (setup usr_bin (sample_context ∅ Cacheonly.default)
                       [base_repo; secure_repo] true) blocked_workspace).
Proof.
  split.
  - apply (setup_keeps_tree usr_bin (sample_context ∅ Cacheonly.default)
             [base_repo; secure_repo] true empty_workspace _ _
             (run_io _ _ _ eq_refl) tree_empty_workspace).
  - apply (setup_keeps_tree usr_bin (sample_context ∅ Cacheonly.default)
             [base_repo; secure_repo] true blocked_workspace _ _
             (run_io _ _ _ eq_refl) tree_blocked_workspace).
Defined.

(** ** X13 *)

Lemma setup_blocked_by_file_witness :
  exists fs' e,
    setup usr_bin (sample_context ∅ Cacheonly.default) [base_repo] true
      blocked_workspace = (fs', Raised e).
Proof.
  apply (setup_blocked_by_file usr_bin (sample_context ∅ Cacheonly.default) [base_repo]
           true blocked_workspace ["work"; "pkgmngr"; "etc"; "yum.repos.d"]
           "not a directory").
  - exact tree_blocked_workspace.
  - right. exists []. reflexivity.
  - vm_compute. reflexivity.
Defined.

(** ** X15 *)

Lemma invoke_log_path_is_file_witness :
  let context := sample_context ∅ Cacheonly.default in
  let fs1 := state_after
               (invoke_try usr_bin false 0%Z run_log_file sample_sandbox sample_mounts
                  sample_apivfs_cmd sample_enter sample_exit context "install" ["bash"]
                  true (Some 1%Z))
               empty_workspace in
  fs1 !! ["work"; "root"; "var"; "log"] = Some (File "not a directory") /\
  invoke usr_bin false 0%Z run_log_file sample_sandbox sample_mounts sample_apivfs_cmd
    sample_enter sample_exit context "install" ["bash"] true (Some 1%Z) empty_workspace =
    (fs1, Raised NotADirectoryError).
Proof.
  intros context fs1.
  assert (Hfile : fs1 !! ["work"; "root"; "var"; "log"] = Some (File "not a directory"))
    by (vm_compute; reflexivity).
  split; [exact Hfile|].
  apply (invoke_log_path_is_file usr_bin false 0%Z run_log_file sample_sandbox
           sample_mounts sample_apivfs_cmd sample_enter sample_exit context "install"
           ["bash"] true (Some 1%Z) empty_workspace fs1 _ "not a directory"
           (run_io _ _ _ eq_refl) Hfile).
Defined.

(** ** X16 *)

Lemma remove_logs_twice_witness :
  let context := sample_context ∅ Cacheonly.default in
  let logged := state_after (run_logging 0 [] [] None None) empty_workspace in
  let cleaned := state_after (remove_logs context) logged in
  logged !! ["work"; "root"; "var"; "log"; "dnf5.log"] = Some (File "d") /\
  cleaned !! ["work"; "root"; "var"; "log"; "dnf5.log"] = None /\
  remove_logs context cleaned = (cleaned, Returned tt).
Proof.
  intros context logged cleaned.
  split; [vm_compute; reflexivity|]. split; [vm_compute; reflexivity|].
  apply (remove_logs_twice context logged cleaned).
  apply run_io. vm_compute. reflexivity.
Defined.

(** ** X17 *)

Lemma invoke_cleanup_keeps_tree_witness :
  tree (state_after
          (invoke usr_bin false 0%Z (run_logging 0) sample_sandbox sample_mounts
             sample_apivfs_cmd sample_enter sample_exit
             (sample_context ∅ Cacheonly.default) "install" ["bash"] true (Some 1%Z))
          empty_workspace).
Proof.
  apply (invoke_cleanup_keeps_tree usr_bin false 0%Z (run_logging 0) sample_sandbox
           sample_mounts sample_apivfs_cmd sample_enter sample_exit
           (sample_context ∅ Cacheonly.default) "install" ["bash"] true (Some 1%Z)
           empty_workspace).
  change (tree (<[ ["work"; "root"; "var"; "log"; "messages"] := File "boot" ]>
                  (<[ ["work"; "root"; "var"; "log"; "yum.log"] := File "y" ]>
                     (<[ ["work"; "root"; "var"; "log"; "hawkey.log"] := File "h" ]>
                        (<[ ["work"; "root"; "var"; "log"; "dnf5.log"] := File "d" ]>
                           (<[ ["work"; "root"; "var"; "log"] := Dir ]>
                              (<[ ["work"; "root"; "var"] := Dir ]> empty_workspace))))))).
  unfold empty_workspace. tree_of_insertions.
Defined.

(** ** X18 *)


(** ** X19 *)


(** ** X20 *)

Lemma createrepo_after_setup_witness :
  let context := sample_context ∅ Cacheonly.default in
  let local := ["work"; "pkgmngr"; "etc"; "yum.repos.d"; "mkosi-local.repo"] in
  let repo := ["work"; "pkgmngr"; "etc"; "yum.repos.d"; "mkosi.repo"] in
  let fs := state_after (setup usr_bin context [base_repo] true) empty_workspace in
  let written := <[local := File (Textwrap.dedent local_repo_template)]> fs in
  createrepo usr_bin false 0%Z run_quiet sample_sandbox sample_mounts
    sample_apivfs_cmd sample_enter sample_exit context fs =
  sync usr_bin false 0%Z run_quiet sample_sandbox sample_mounts sample_apivfs_cmd
    sample_enter sample_exit context ["--disablerepo=*"; "--enablerepo=mkosi"] written /\
  written !! repo = fs !! repo /\
  is_Some (fs !! repo).
Proof.
  intros context local repo fs written.
  apply (createrepo_after_setup usr_bin false 0%Z run_quiet sample_sandbox sample_mounts
           sample_apivfs_cmd sample_enter sample_exit context [base_repo] true
           empty_workspace fs fs
           {| args := ["createrepo_c"; "/work/packages"]; returncode := 0 |}).
  - apply run_io. vm_compute. reflexivity.
  - reflexivity.
  - reflexivity.
  - vm_compute. discriminate.
Defined.
